(** * lifetime_github_stats: the statistics cascade, its request client and its cache

    A shallow embedding of [GitHubStatsAnalyzer] (src/lifetime_github_stats.py):
    the rate-limited request client [_make_request], the three retrieval
    strategies and [get_repository_stats] with its 24 hour cache.

    Conventions of the embedding.
    - A decoded JSON document is a [json] value; JSON numbers are integers
      (the provider's endpoints and the cache written by this program only
      carry integers, up to the timestamp, see below).
    - Python exceptions are the [Raise] results of [res]; [try .. except]
      is [try_except].
    - The outside world is a [world]: the wall clock, the outcomes of the
      [session.get] calls still to come, the chronological log of the
      requests issued and of the [time.sleep] calls, and [self.cache].
      [time.time()] is read as whole seconds and advances by sleeping.
    - The two floats of the program that influence a result, in
      [min(user_commits / 100, 0.5)], are IEEE binary64 numbers, computed
      with the Standard Library's [SpecFloat]. *)

From Stdlib Require Import ZArith String Ascii List Bool Lia.
From Stdlib Require Import Floats.SpecFloat.
From stdpp Require Import gmap strings list.

Local Open Scope string_scope.
Local Open Scope list_scope.
Local Open Scope Z_scope.

(** ** Python values and exceptions *)

#[local] Unset Elimination Schemes.
Inductive json : Type :=
| JNull
| JBool (b : bool)
| JInt (z : Z)
| JStr (s : string)
| JArr (items : list json)
| JObj (fields : list (string * json)).
#[local] Set Elimination Schemes.

Inductive exn : Type :=
| KeyError | IndexError | TypeError | AttributeError | ValueError
| OverflowError | JSONDecodeError.

Inductive res (A : Type) : Type :=
| Ok (a : A)
| Raise (e : exn).
Arguments Ok {A} a.
Arguments Raise {A} e.

Definition rbind {A B} (m : res A) (k : A -> res B) : res B :=
  match m with
  | Ok a => k a
  | Raise e => Raise e
  end.

Notation "'let?' x := m 'in' k" := (rbind m (fun x => k))
  (at level 10, x name, m at level 100, k at level 200).

(** [bool(v)] *)
Definition truthy (v : json) : bool :=
  match v with
  | JNull => false
  | JBool b => b
  | JInt z => negb (z =? 0)
  | JStr s => negb (String.eqb s "")
  | JArr items => match items with [] => false | _ => true end
  | JObj fields => match fields with [] => false | _ => true end
  end.

Fixpoint assoc (k : string) (fields : list (string * json)) : option json :=
  match fields with
  | [] => None
  | (k', v) :: rest => if String.eqb k k' then Some v else assoc k rest
  end.

(** [v.get(k, default)]: only a dict has the method. *)
Definition py_get (v : json) (k : string) (default : json) : res json :=
  match v with
  | JObj fields =>
      match assoc k fields with Some x => Ok x | None => Ok default end
  | _ => Raise AttributeError
  end.

(** [v[k]] for a string key. *)
Definition py_getitem (v : json) (k : string) : res json :=
  match v with
  | JObj fields =>
      match assoc k fields with Some x => Ok x | None => Raise KeyError end
  | _ => Raise TypeError
  end.

Fixpoint chars (s : string) : list json :=
  match s with
  | EmptyString => []
  | String c rest => JStr (String c EmptyString) :: chars rest
  end.

(** [iter(v)]: a list yields its items, a dict its keys, a string its
    characters. *)
Definition py_iter (v : json) : res (list json) :=
  match v with
  | JArr items => Ok items
  | JObj fields => Ok (map (fun kv => JStr (fst kv)) fields)
  | JStr s => Ok (chars s)
  | _ => Raise TypeError
  end.

(** [len(v)] *)
Definition py_len (v : json) : res Z :=
  match v with
  | JArr items => Ok (Z.of_nat (length items))
  | JObj fields => Ok (Z.of_nat (length fields))
  | JStr s => Ok (Z.of_nat (String.length s))
  | _ => Raise TypeError
  end.

(** [v[i]] for a literal index [i >= 0]. *)
Definition py_index (v : json) (i : nat) : res json :=
  match v with
  | JArr items =>
      match nth_error items i with
      | Some x => Ok x
      | None => Raise IndexError
      end
  | JStr s =>
      match nth_error (chars s) i with
      | Some x => Ok x
      | None => Raise IndexError
      end
  | JObj _ => Raise KeyError
  | _ => Raise TypeError
  end.

(** [v[:n]] *)
Definition py_slice (v : json) (n : nat) : res (list json) :=
  match v with
  | JArr items => Ok (firstn n items)
  | JStr s => Ok (firstn n (chars s))
  | _ => Raise TypeError
  end.

(** [acc + v] for an integer [acc]: [bool] is a subclass of [int]. *)
Definition py_add (acc : Z) (v : json) : res Z :=
  match v with
  | JInt z => Ok (acc + z)
  | JBool b => Ok (acc + (if b then 1 else 0))
  | _ => Raise TypeError
  end.

(** [v == s] for a string [s]. *)
Definition py_eq_str (v : json) (s : string) : bool :=
  match v with
  | JStr s' => String.eqb s' s
  | _ => false
  end.

(** ** Floats: IEEE binary64 *)

Module Float64.

Definition prec : Z := 53.
Definition emax : Z := 1024.

(** [float(z)]: round to nearest even, [OverflowError] out of range. *)
Definition of_int (z : Z) : res spec_float :=
  match binary_normalize prec emax z 0 false with
  | S754_infinity _ => Raise OverflowError
  | f => Ok f
  end.

Definition half : spec_float := S754_finite false 4503599627370496 (-53).

(** [a / b] on two integers: the quotient of the two conversions, which
    is Python's correctly rounded quotient as long as both are exact in
    binary64 (below 2^53; here [a] is a list length and [b] is 100). *)
Definition truediv (a b : Z) : res spec_float :=
  let? fa := of_int a in
  let? fb := of_int b in
  Ok (SFdiv prec emax fa fb).

(** [min(x, y)]: [y] when [y < x], else [x]. *)
Definition min (x y : spec_float) : spec_float :=
  if SFltb y x then y else x.

(** [z * f]: the integer is converted first. *)
Definition int_mul (z : Z) (f : spec_float) : res spec_float :=
  let? fz := of_int z in
  Ok (SFmul prec emax fz f).

(** [int(f)]: truncation towards zero. *)
Definition to_int (f : spec_float) : res Z :=
  match f with
  | S754_zero _ => Ok 0
  | S754_infinity _ => Raise OverflowError
  | S754_nan => Raise ValueError
  | S754_finite s m e =>
      let magnitude :=
        if 0 <=? e then Z.pos m * 2 ^ e else Z.pos m / 2 ^ (- e) in
      Ok (if s then - magnitude else magnitude)
  end.

End Float64.

(** ** The outside world *)

Definition API_BASE : string := "https://api.github.com".
Definition RATE_LIMIT_DELAY : Z := 1.   (* 1.0 seconds *)
Definition STATS_RETRY_DELAY : Z := 5.  (* 5.0 seconds *)
Definition MAX_STATS_RETRIES : nat := 6.

(** The endpoints the cascade calls, as the pieces its f-strings put
    after [API_BASE]. *)
Inductive url : Type :=
| StatsContributors (repo_name : string)  (* /repos/{repo_name}/stats/contributors *)
| StatsCodeFrequency (repo_name : string) (* /repos/{repo_name}/stats/code_frequency *)
| Commits (repo_name : string)            (* /repos/{repo_name}/commits *)
| Commit (repo_name : string) (sha : json). (* /repos/{repo_name}/commits/{sha} *)

Definition query : Type := option (list (string * json)).

(** [int(response.headers.get('X-RateLimit-Reset', 0))]: the header is
    absent, or [int] reads it, or [int] raises [ValueError]. *)
Inductive reset_header : Type :=
| HAbsent
| HInt (reset_time : Z)
| HMalformed.

Definition reset_time_of (h : reset_header) : res Z :=
  match h with
  | HAbsent => Ok 0
  | HInt reset_time => Ok reset_time
  | HMalformed => Raise ValueError
  end.

Record response : Type := {
  status_code : Z;
  text : string;
  x_ratelimit_reset : reset_header;
  body : option json  (* what [response.json()] decodes; [None]: it raises *)
}.

(** What one [session.get] does: it returns a response or raises. *)
Inductive outcome : Type :=
| Resp (r : response)
| NetErr.

Inductive event : Type :=
| EGet (u : url) (params : query)
| ESleep (seconds : Z).

Record world : Type := {
  clock : Z;
  net : list outcome;
  log : list event;
  cache : gmap string json
}.

Definition set_net (script : list outcome) (w : world) : world :=
  {| clock := clock w; net := script; log := log w; cache := cache w |}.

Definition emit (e : event) (w : world) : world :=
  {| clock := clock w; net := net w; log := log w ++ [e]; cache := cache w |}.

Definition advance (d : Z) (w : world) : world :=
  {| clock := clock w + d; net := net w; log := log w; cache := cache w |}.

(** [time.sleep(d)] *)
Definition sleep (d : Z) (w : world) : world :=
  emit (ESleep d) (advance d w).

Definition set_cache (c : gmap string json) (w : world) : world :=
  {| clock := clock w; net := net w; log := log w; cache := c |}.

(** ** Stateful computations that may raise *)

Definition M (A : Type) : Type := world -> res A * world.

Definition ret {A} (a : A) : M A := fun w => (Ok a, w).

Definition bind {A B} (m : M A) (k : A -> M B) : M B :=
  fun w =>
    match m w with
    | (Ok a, w') => k a w'
    | (Raise e, w') => (Raise e, w')
    end.

Definition lift {A} (r : res A) : M A := fun w => (r, w).

(** [try: m  except Exception: return fallback] *)
Definition try_except {A} (m : M A) (fallback : A) : M A :=
  fun w =>
    match m w with
    | (Ok a, w') => (Ok a, w')
    | (Raise _, w') => (Ok fallback, w')
    end.

Definition do_sleep (d : Z) : M unit := fun w => (Ok tt, sleep d w).

Notation "'let*' x := m 'in' k" := (bind m (fun x => k))
  (at level 10, x name, m at level 100, k at level 200).

(** ** The rate-limited request client *)

Definition lower_ascii (c : ascii) : ascii :=
  let n := nat_of_ascii c in
  if ((65 <=? n) && (n <=? 90))%nat then ascii_of_nat (n + 32) else c.

Fixpoint lower (s : string) : string :=
  match s with
  | EmptyString => EmptyString
  | String c rest => String (lower_ascii c) (lower rest)
  end.

(** [needle in s] *)
Fixpoint contains (needle s : string) : bool :=
  String.prefix needle s
  || match s with
     | EmptyString => false
     | String _ rest => contains needle rest
     end.

Definition rate_limited (r : response) : bool :=
  (status_code r =? 403) && contains "rate limit" (lower (text r)).

(** [_make_request], by recursion on the outcomes still to come: each
    attempt consumes one, and a call made when none is left fails like a
    connection error.  The whole body is inside [try .. except Exception],
    so nothing is raised.  The retry of a rate-limited request is a nested
    call in the source: the recursion stands for it as long as the
    nesting stays within the interpreter's recursion limit (1000 frames by
    default), beyond which the source catches [RecursionError] and yields
    absent. *)
Fixpoint request_loop (script : list outcome) (u : url) (params : query)
    (allow_non_200 : bool) (w : world) : option response * world :=
  let w := emit (EGet u params) w in
  match script with
  | [] => (None, set_net [] w)
  | NetErr :: rest => (None, set_net rest w)
  | Resp response :: rest =>
      let w := set_net rest w in
      if rate_limited response then
        match reset_time_of (x_ratelimit_reset response) with
        | Raise _ => (None, w)
        | Ok reset_time =>
            let wait_time := Z.max (reset_time - clock w) 60 in
            request_loop rest u params allow_non_200 (sleep wait_time w)
        end
      else if allow_non_200 then
        (Some response, sleep RATE_LIMIT_DELAY w)
      else if status_code response =? 200 then
        (Some response, sleep RATE_LIMIT_DELAY w)
      else
        (None, w)
  end.

Definition _make_request (u : url) (params : query) (allow_non_200 : bool)
  : M (option response) :=
  fun w =>
    let '(r, w') := request_loop (net w) u params allow_non_200 w in
    (Ok r, w').

(** [if response:] on what [_make_request] returned.  A
    [requests.Response] is true when its status is not an error status
    (its [ok] property: no 4xx, no 5xx). *)
Definition response_ok (r : response) : bool :=
  negb ((400 <=? status_code r) && (status_code r <? 600)).

Definition present (o : option response) : option response :=
  match o with
  | Some r => if response_ok r then Some r else None
  | None => None
  end.

(** [response.json()] *)
Definition response_json (r : response) : res json :=
  match body r with
  | Some v => Ok v
  | None => Raise JSONDecodeError
  end.

(** A repository as the enumerator yields it; [repo['full_name']] is all
    the cascade reads. *)
Record repo : Type := { full_name : string }.

(** ** The three strategies and the cascade *)

Section Analyzer.

(** [self.username] *)
Variable username : string.

(** [sum(week.get(k, 0) for week in weeks)], from the running total
    [acc]. *)
Fixpoint sum_key (k : string) (weeks : list json) (acc : Z) : res Z :=
  match weeks with
  | [] => Ok acc
  | week :: rest =>
      let? v := py_get week k (JInt 0) in
      let? acc' := py_add acc v in
      sum_key k rest acc'
  end.

(** [author and author.get('login') == self.username] *)
Definition is_target (contributor : json) : res bool :=
  let? author := py_get contributor "author" JNull in
  if truthy author then
    let? login := py_get author "login" JNull in
    Ok (py_eq_str login username)
  else Ok false.

Definition contributor_totals (contributor : json) : res (Z * Z) :=
  let? weeks := py_get contributor "weeks" (JArr []) in
  let? ws := py_iter weeks in
  let? total_additions := sum_key "a" ws 0 in
  let? total_deletions := sum_key "d" ws 0 in
  Ok (total_additions, total_deletions).

(** The [for contributor in contributors] loop. *)
Fixpoint scan_contributors (contributors : list json) : res (Z * Z) :=
  match contributors with
  | [] => Ok (0, 0)
  | contributor :: rest =>
      let? found := is_target contributor in
      if found then contributor_totals contributor
      else scan_contributors rest
  end.

(** The body of the [try] of the 200 branch. *)
Definition parse_contributors (r : response) : res (Z * Z) :=
  let? contributors := response_json r in
  if negb (truthy contributors) then Ok (0, 0)
  else
    let? items := py_iter contributors in
    scan_contributors items.

(** [for attempt in range(attempts)] of
    [_get_stats_from_contributors_with_retry]. *)
Fixpoint contributors_poll (attempts : nat) (repo_name : string)
  : M (Z * Z) :=
  match attempts with
  | O => ret (0, 0)
  | S remaining =>
      let* response :=
        _make_request (StatsContributors repo_name) None true in
      match present response with
      | None => ret (0, 0)
      | Some r =>
          if status_code r =? 200 then
            try_except (lift (parse_contributors r)) (0, 0)
          else if status_code r =? 202 then
            let* _ := do_sleep STATS_RETRY_DELAY in
            contributors_poll remaining repo_name
          else if status_code r =? 204 then ret (0, 0)
          else if status_code r =? 422 then ret (0, 0)
          else ret (0, 0)
      end
  end.

Definition _get_stats_from_contributors_with_retry (repo_name : string)
  : M (Z * Z) :=
  contributors_poll MAX_STATS_RETRIES repo_name.

Definition _get_user_commits_sample (repo_name : string) : M json :=
  try_except
    (let* response :=
       _make_request (Commits repo_name)
         (Some [("author", JStr username); ("per_page", JInt 10)]) false in
     match present response with
     | Some r => lift (response_json r)
     | None => ret (JArr [])
     end)
    (JArr []).

(** [sum(week[i] for week in weeks if len(week) >= i + 1)], from the
    running total [acc]. *)
Fixpoint sum_column (i : nat) (weeks : list json) (acc : Z) : res Z :=
  match weeks with
  | [] => Ok acc
  | week :: rest =>
      let? n := py_len week in
      if Z.of_nat (S i) <=? n then
        let? v := py_index week i in
        let? acc' := py_add acc v in
        sum_column i rest acc'
      else sum_column i rest acc
  end.

Definition weekly_additions (frequency_data : json) : res Z :=
  let? weeks := py_iter frequency_data in
  sum_column 1 weeks 0.

Definition weekly_deletions (frequency_data : json) : res Z :=
  let? weeks := py_iter frequency_data in
  let? total := sum_column 2 weeks 0 in
  Ok (Z.abs total).

(** [min(user_commits / 100, 0.5)] *)
Definition scaling_factor (user_commits : Z) : res spec_float :=
  let? share := Float64.truediv user_commits 100 in
  Ok (Float64.min share Float64.half).

(** [int(total * scaling_factor)] *)
Definition scaled (total : Z) (factor : spec_float) : res Z :=
  let? product := Float64.int_mul total factor in
  Float64.to_int product.

(** The body of the [try] of the 200 branch of
    [_get_stats_from_code_frequency]. *)
Definition estimate_from_frequency (repo_name : string) (r : response)
  : M (Z * Z) :=
  let* frequency_data := lift (response_json r) in
  if negb (truthy frequency_data) then ret (0, 0)
  else
    let* commits := _get_user_commits_sample repo_name in
    if negb (truthy commits) then ret (0, 0)
    else
      let* total_additions := lift (weekly_additions frequency_data) in
      let* total_deletions := lift (weekly_deletions frequency_data) in
      let* user_commits := lift (py_len commits) in
      if 0 <? user_commits then
        let* total_commits_response :=
          _make_request (Commits repo_name)
            (Some [("per_page", JInt 1)]) false in
        match present total_commits_response with
        | Some _ =>
            let* factor := lift (scaling_factor user_commits) in
            let* estimated_additions :=
              lift (scaled total_additions factor) in
            let* estimated_deletions :=
              lift (scaled total_deletions factor) in
            ret (estimated_additions, estimated_deletions)
        | None => ret (0, 0)
        end
      else ret (0, 0).

Fixpoint code_frequency_poll (attempts : nat) (repo_name : string)
  : M (Z * Z) :=
  match attempts with
  | O => ret (0, 0)
  | S remaining =>
      let* response :=
        _make_request (StatsCodeFrequency repo_name) None true in
      match present response with
      | None => ret (0, 0)
      | Some r =>
          if status_code r =? 200 then
            try_except (estimate_from_frequency repo_name r) (0, 0)
          else if status_code r =? 202 then
            let* _ := do_sleep STATS_RETRY_DELAY in
            code_frequency_poll remaining repo_name
          else if status_code r =? 204 then ret (0, 0)
          else ret (0, 0)
      end
  end.

Definition _get_stats_from_code_frequency (repo_name : string)
  : M (Z * Z) :=
  code_frequency_poll MAX_STATS_RETRIES repo_name.

(** The [for i, commit in enumerate(commits[:10])] loop, from the
    running totals. *)
Fixpoint sample_commits (repo_name : string) (commits : list json)
    (totals : Z * Z) : M (Z * Z) :=
  match commits with
  | [] => ret totals
  | commit :: rest =>
      let* sha := lift (py_getitem commit "sha") in
      let* commit_response :=
        _make_request (Commit repo_name sha) None false in
      match present commit_response with
      | Some r =>
          let* commit_data := lift (response_json r) in
          let* stats := lift (py_get commit_data "stats" (JObj [])) in
          let* additions := lift (py_get stats "additions" (JInt 0)) in
          let* deletions := lift (py_get stats "deletions" (JInt 0)) in
          let* total_additions := lift (py_add (fst totals) additions) in
          let* total_deletions := lift (py_add (snd totals) deletions) in
          sample_commits repo_name rest (total_additions, total_deletions)
      | None => sample_commits repo_name rest totals
      end
  end.

Definition _get_stats_from_commits_sample (repo_name : string)
  : M (Z * Z) :=
  let* commits := _get_user_commits_sample repo_name in
  if negb (truthy commits) then ret (0, 0)
  else
    (* the progress line formats len(commits) *)
    let* _ := lift (py_len commits) in
    let* sample := lift (py_slice commits 10) in
    sample_commits repo_name sample (0, 0).

(** ** get_repository_stats *)

Definition cache_key (repo_name : string) : string :=
  "repo_stats_" +:+ repo_name +:+ "_v2".

Definition is_zero (stats : Z * Z) : bool :=
  (fst stats =? 0) && (snd stats =? 0).

(** [now - v] for the float [now] *)
Definition py_age (now : Z) (v : json) : res Z :=
  match v with
  | JInt z => Ok (now - z)
  | JBool b => Ok (now - (if b then 1 else 0))
  | _ => Raise TypeError
  end.

(** The cache check: [Some] stands for the early [return]. *)
Definition cache_check (key : string) : M (option (json * json)) :=
  fun w =>
    match cache w !! key with
    | Some cached_data =>
        (let? timestamp := py_get cached_data "timestamp" (JInt 0) in
         let? age := py_age (clock w) timestamp in
         if age <? 86400 then
           let? additions := py_getitem cached_data "additions" in
           let? deletions := py_getitem cached_data "deletions" in
           Ok (Some (additions, deletions))
         else Ok None, w)
    | None => (Ok None, w)
    end.

Definition cache_entry (stats : Z * Z) (now : Z) : json :=
  JObj [("additions", JInt (fst stats));
        ("deletions", JInt (snd stats));
        ("timestamp", JInt now)].

(** [self.cache[cache_key] = {...}] *)
Definition cache_store (key : string) (stats : Z * Z) : M unit :=
  fun w =>
    (Ok tt, set_cache (<[key := cache_entry stats (clock w)]> (cache w)) w).

(** The three strategies in their order, before the result is cached. *)
Definition cascade (repo_name : string) : M (Z * Z) :=
  let* stats := _get_stats_from_contributors_with_retry repo_name in
  let* stats :=
    if is_zero stats then _get_stats_from_code_frequency repo_name
    else ret stats in
  if is_zero stats then _get_stats_from_commits_sample repo_name
  else ret stats.

(** What [get_repository_stats] does once the cache check has not
    returned. *)
Definition analyze (repo_name : string) : M (json * json) :=
  let* stats := cascade repo_name in
  let* _ := cache_store (cache_key repo_name) stats in
  ret (JInt (fst stats), JInt (snd stats)).

Definition get_repository_stats (r : repo) : M (json * json) :=
  let repo_name := full_name r in
  let* cached := cache_check (cache_key repo_name) in
  match cached with
  | Some hit => ret hit
  | None => analyze repo_name
  end.

End Analyzer.

(** ** The paginated fetcher *)

(** [d[k] = v] on a dict kept in insertion order. *)
Fixpoint dict_set (k : string) (v : json) (d : list (string * json))
  : list (string * json) :=
  match d with
  | [] => [(k, v)]
  | (k', v') :: rest =>
      if String.eqb k k' then (k', v) :: rest
      else (k', v') :: dict_set k v rest
  end.

(** [d.update(extra)] *)
Definition dict_update (d extra : list (string * json))
  : list (string * json) :=
  fold_left (fun acc kv => dict_set (fst kv) (snd kv) acc) extra d.

(** [current_params] of one iteration: page and page size, then the
    caller's parameters on top ([if params:] skips [None] and [{}]). *)
Definition page_params (page : Z) (params : query) : query :=
  let current_params := [("page", JInt page); ("per_page", JInt 100)] in
  match params with
  | Some (kv :: extra) => Some (dict_update current_params (kv :: extra))
  | _ => Some current_params
  end.

(** The [while True] loop of [_get_paginated_data], for at most [fuel]
    iterations; [None] when they are used up.  Every iteration that goes
    on has consumed an outcome of the network, so the outcomes left bound
    the iterations (see [paginate_enough_fuel]). *)
Fixpoint paginate (fuel : nat) (u : url) (params : query) (page : Z)
    (results : list json) : M (option (list json)) :=
  match fuel with
  | O => ret None
  | S fuel' =>
      let* response := _make_request u (page_params page params) false in
      match present response with
      | None => ret (Some results)
      | Some r =>
          let* data := lift (response_json r) in
          if negb (truthy data) then ret (Some results)
          else
            let* n := lift (py_len data) in
            if n =? 0 then ret (Some results)
            else
              (* results.extend(data) *)
              let* items := lift (py_iter data) in
              paginate fuel' u params (page + 1) (results ++ items)
      end
  end.

Definition _get_paginated_data (u : url) (params : query)
  : M (list json) :=
  fun w =>
    (let* results := paginate (S (length (net w))) u params 1 [] in
     match results with
     | Some items => ret items
     | None => ret []
     end) w.

(** ** The repository enumerator *)

(** [hash(v)] succeeds: lists and dicts are unhashable. *)
Definition hashable (v : json) : bool :=
  match v with
  | JArr _ | JObj _ => false
  | _ => true
  end.

(** The integer an [int] or a [bool] stands for. *)
Definition as_int (v : json) : option Z :=
  match v with
  | JInt z => Some z
  | JBool b => Some (if b then 1 else 0)
  | _ => None
  end.

(** [a == b] on hashable values: numbers compare by value ([True == 1]),
    strings and [None] with their own kind only. *)
Definition py_eq (a b : json) : bool :=
  match a, b with
  | JNull, JNull => true
  | JStr s, JStr t => String.eqb s t
  | _, _ =>
      match as_int a, as_int b with
      | Some x, Some y => x =? y
      | _, _ => false
      end
  end.

(** [v not in seen] for a set [seen], given by its elements. *)
Definition not_in_set (v : json) (seen : list json) : res bool :=
  if hashable v then Ok (negb (existsb (py_eq v) seen))
  else Raise TypeError.

(** The [for repo in repos] loop that removes duplicates, from the set
    [seen] and the list [unique_repos] built so far. *)
Fixpoint unique_loop (repos : list json) (seen unique_repos : list json)
  : res (list json) :=
  match repos with
  | [] => Ok unique_repos
  | repo :: rest =>
      let? name := py_getitem repo "full_name" in
      let? fresh := not_in_set name seen in
      if fresh then unique_loop rest (name :: seen) (unique_repos ++ [repo])
      else unique_loop rest seen unique_repos
  end.

Section Enumerator.

(** The three endpoints of the enumerator:
    [f"{API_BASE}/user/repos"], [f"{API_BASE}/user/orgs"] and
    [f"{API_BASE}/orgs/{org['login']}/repos"]. *)
Variable user_repos_url user_orgs_url : url.
Variable org_repos_url : json -> url.

(** The [for org in orgs] loop, extending [repos]. *)
Fixpoint org_loop (orgs : list json) (repos : list json)
  : M (list json) :=
  match orgs with
  | [] => ret repos
  | org :: rest =>
      let* login := lift (py_getitem org "login") in
      let* org_repos :=
        _get_paginated_data (org_repos_url login)
          (Some [("type", JStr "all")]) in
      org_loop rest (repos ++ org_repos)
  end.

Definition get_all_repositories : M (list json) :=
  let* repos :=
    _get_paginated_data user_repos_url
      (Some [("type", JStr "all"); ("sort", JStr "updated")]) in
  let* orgs_response := _make_request user_orgs_url None false in
  let* repos :=
    match present orgs_response with
    | Some r =>
        let* orgs := lift (response_json r) in
        let* items := lift (py_iter orgs) in
        org_loop items repos
    | None => ret repos
    end in
  lift (unique_loop repos [] []).

End Enumerator.

(** ** The aggregation loop *)

(** A repository of the enumeration: its [full_name], as
    [get_repository_stats] takes it, and the other keys of its record. *)
Record repository : Type := {
  ref : repo;
  metadata : list (string * json)
}.

(** [total_additions], [total_deletions], [processed_repos] and
    [repos_with_contributions] of [analyze_all_repositories]. *)
Record tally : Type := {
  total_additions : Z;
  total_deletions : Z;
  processed_repos : Z;
  repos_with_contributions : list (string * json * json)
}.

Definition empty_tally : tally :=
  {| total_additions := 0; total_deletions := 0; processed_repos := 0;
     repos_with_contributions := [] |}.

(** [v == 0] *)
Definition py_is_zero (v : json) : bool :=
  match as_int v with
  | Some z => z =? 0
  | None => false
  end.

(** [v > 0] *)
Definition py_positive (v : json) : res bool :=
  match as_int v with
  | Some z => Ok (0 <? z)
  | None => Raise TypeError
  end.

(** [f"{v:,}"] is evaluated: integers format, a string refuses the
    [','] specification, other values have no format specifications. *)
Definition py_format_thousands (v : json) : res unit :=
  match v with
  | JInt _ | JBool _ => Ok tt
  | JStr _ => Raise ValueError
  | _ => Raise TypeError
  end.

Section Driver.

Variable username : string.

(** The body of the [try] of one iteration: the tally after it.  The
    line that reports the contribution formats both counts before any
    total is touched, so the totals change together or not at all. *)
Definition process_repo (r : repository) (t : tally) : M tally :=
  let* fork := lift (py_get (JObj (metadata r)) "fork" (JBool false)) in
  if truthy fork then ret t
  else
    let* size := lift (py_get (JObj (metadata r)) "size" (JInt 0)) in
    if py_is_zero size then ret t
    else
      let* stats := get_repository_stats username (ref r) in
      let additions := fst stats in
      let deletions := snd stats in
      let* contributed :=
        lift (let? more := py_positive additions in
              if more then Ok true else py_positive deletions) in
      if contributed then
        let* _ := lift (py_format_thousands additions) in
        let* _ := lift (py_format_thousands deletions) in
        let* total_additions' :=
          lift (py_add (total_additions t) additions) in
        let* total_deletions' :=
          lift (py_add (total_deletions t) deletions) in
        ret {| total_additions := total_additions';
               total_deletions := total_deletions';
               processed_repos := processed_repos t + 1;
               repos_with_contributions :=
                 repos_with_contributions t
                 ++ [(full_name (ref r), additions, deletions)] |}
      else ret t.

(** The [for i, repo in enumerate(repos, 1)] loop: an exception of an
    iteration is caught and the loop goes on with the tally it had. *)
Fixpoint analyze_loop (repos : list repository) (t : tally) : M tally :=
  match repos with
  | [] => ret t
  | r :: rest =>
      let* t' := try_except (process_repo r t) t in
      analyze_loop rest t'
  end.

End Driver.

(** * Properties *)

(** ** The request client, one outcome at a time *)

(** The world once [session.get] has been called and has consumed the
    next outcome. *)
Definition sent (u : url) (params : query) (rest : list outcome)
    (w : world) : world :=
  set_net rest (emit (EGet u params) w).

Lemma make_request_returned u params allow w r rest :
  net w = Resp r :: rest ->
  rate_limited r = false ->
  allow = true \/ status_code r = 200 ->
  _make_request u params allow w
  = (Ok (Some r), sleep RATE_LIMIT_DELAY (sent u params rest w)).
Proof.
  intros Hnet Hrl Hret. unfold _make_request. rewrite Hnet. simpl.
  rewrite Hrl. destruct allow; [reflexivity|].
  destruct Hret as [Hallow|Hst]; [discriminate|].
  rewrite Hst. reflexivity.
Qed.

Lemma make_request_refused u params w r rest :
  net w = Resp r :: rest ->
  rate_limited r = false ->
  status_code r <> 200 ->
  _make_request u params false w = (Ok None, sent u params rest w).
Proof.
  intros Hnet Hrl Hst. unfold _make_request. rewrite Hnet. simpl.
  rewrite Hrl. apply Z.eqb_neq in Hst. rewrite Hst. reflexivity.
Qed.

Lemma make_request_retry u params allow w r rest reset_time :
  net w = Resp r :: rest ->
  rate_limited r = true ->
  reset_time_of (x_ratelimit_reset r) = Ok reset_time ->
  _make_request u params allow w
  = _make_request u params allow
      (sleep (Z.max (reset_time - clock w) 60) (sent u params rest w)).
Proof.
  intros Hnet Hrl Hreset. unfold _make_request at 1. rewrite Hnet. simpl.
  rewrite Hrl, Hreset. reflexivity.
Qed.

Lemma make_request_failed u params allow w rest :
  net w = NetErr :: rest ->
  _make_request u params allow w = (Ok None, sent u params rest w).
Proof.
  intros Hnet. unfold _make_request. rewrite Hnet. reflexivity.
Qed.

Lemma request_loop_status script u params w r w' :
  request_loop script u params false w = (Some r, w') ->
  status_code r = 200.
Proof.
  revert w. induction script as [|o rest IH]; intros w; simpl.
  - discriminate.
  - destruct o as [r0|]; [|discriminate].
    destruct (rate_limited r0).
    + destruct (reset_time_of (x_ratelimit_reset r0)); [apply IH|discriminate].
    + destruct (status_code r0 =? 200) eqn:E; [|discriminate].
      intros H. inversion H; subst. now apply Z.eqb_eq.
Qed.

(** Without [allow_non_200] the caller only ever sees status 200. *)
Lemma make_request_status u params w r w' :
  _make_request u params false w = (Ok (Some r), w') ->
  status_code r = 200.
Proof.
  unfold _make_request.
  destruct (request_loop (net w) u params false w) as [o w1] eqn:E.
  intros H. inversion H; subst. eapply request_loop_status; eauto.
Qed.

Lemma make_request_total u params allow w :
  exists o w', _make_request u params allow w = (Ok o, w').
Proof.
  unfold _make_request.
  destruct (request_loop (net w) u params allow w) as [o w']; eauto.
Qed.

(** ** What a computation leaves alone

    A relation between the world before and the world after that every
    primitive step respects is respected by the client, by the
    strategies and by the cascade. *)

Class Frame (R : world -> world -> Prop) : Prop := {
  frame_refl : forall w, R w w;
  frame_trans : forall a b c, R a b -> R b c -> R a c;
  frame_emit : forall e w, R w (emit e w);
  frame_set_net : forall s w, R w (set_net s w);
  frame_advance : forall d w, R w (advance d w)
}.

Definition keeps (R : world -> world -> Prop) {A} (m : M A) : Prop :=
  forall w, R w (snd (m w)).

Section FrameRules.

Context (R : world -> world -> Prop) `{!Frame R}.

Lemma frame_sleep d w : R w (sleep d w).
Proof.
  unfold sleep. eapply frame_trans; [apply frame_advance|apply frame_emit].
Qed.

Lemma frame_sent u params rest w : R w (sent u params rest w).
Proof.
  unfold sent. eapply frame_trans; [apply frame_emit|apply frame_set_net].
Qed.

Lemma keeps_ret {A} (a : A) : keeps R (ret a).
Proof. intros w. apply frame_refl. Qed.

Lemma keeps_lift {A} (r : res A) : keeps R (lift r).
Proof. intros w. apply frame_refl. Qed.

Lemma keeps_sleep d : keeps R (do_sleep d).
Proof. intros w. apply frame_sleep. Qed.

Lemma keeps_bind {A B} (m : M A) (k : A -> M B) :
  keeps R m -> (forall a, keeps R (k a)) -> keeps R (bind m k).
Proof.
  intros Hm Hk w. unfold bind. specialize (Hm w).
  destruct (m w) as [[a|e] w1]; simpl in *; [|assumption].
  eapply frame_trans; [eassumption|apply Hk].
Qed.

Lemma keeps_try {A} (m : M A) (fallback : A) :
  keeps R m -> keeps R (try_except m fallback).
Proof.
  intros Hm w. unfold try_except. specialize (Hm w).
  destruct (m w) as [[a|e] w1]; assumption.
Qed.

Lemma frame_request_loop script u params allow w :
  R w (snd (request_loop script u params allow w)).
Proof.
  revert w. induction script as [|o rest IH]; intros w; simpl.
  - apply frame_sent.
  - destruct o as [r|]; [|apply frame_sent].
    destruct (rate_limited r).
    + destruct (reset_time_of (x_ratelimit_reset r)); [|apply frame_sent].
      eapply frame_trans; [|apply IH].
      eapply frame_trans; [apply (frame_sent u params rest)|apply frame_sleep].
    + destruct allow; [|destruct (status_code r =? 200)];
        try apply (frame_sent u params rest);
        (eapply frame_trans;
         [apply (frame_sent u params rest)|apply frame_sleep]).
Qed.

Lemma keeps_request u params allow : keeps R (_make_request u params allow).
Proof.
  intros w. unfold _make_request.
  pose proof (frame_request_loop (net w) u params allow w) as H.
  destruct (request_loop (net w) u params allow w); exact H.
Qed.

End FrameRules.

(** Walks down a computation built from the monad's operations. *)
Ltac frame_step :=
  first
    [ assumption
    | match goal with
      | |- Frame _ => exact _
      | |- forall _, keeps _ _ => intros ?
      end
    | apply keeps_ret
    | apply keeps_lift
    | apply keeps_sleep
    | apply keeps_request
    | apply keeps_try
    | apply keeps_bind
    | match goal with
      | |- keeps _ (match ?x with _ => _ end) => destruct x
      end ].

Ltac frame := repeat frame_step.

Section FrameStrategies.

Context (R : world -> world -> Prop) `{!Frame R}.
Variable username : string.

Lemma keeps_contributors_poll attempts repo_name :
  keeps R (contributors_poll username attempts repo_name).
Proof. induction attempts as [|n IH]; simpl; frame. Qed.

Lemma keeps_contributors repo_name :
  keeps R (_get_stats_from_contributors_with_retry username repo_name).
Proof. apply keeps_contributors_poll. Qed.

Lemma keeps_user_commits_sample repo_name :
  keeps R (_get_user_commits_sample username repo_name).
Proof. unfold _get_user_commits_sample. frame. Qed.

Lemma keeps_estimate repo_name r :
  keeps R (estimate_from_frequency username repo_name r).
Proof.
  unfold estimate_from_frequency.
  pose proof (keeps_user_commits_sample repo_name). frame.
Qed.

Lemma keeps_code_frequency_poll attempts repo_name :
  keeps R (code_frequency_poll username attempts repo_name).
Proof.
  induction attempts as [|n IH]; simpl; [frame|].
  pose proof (fun r => keeps_estimate repo_name r). frame.
Qed.

Lemma keeps_code_frequency repo_name :
  keeps R (_get_stats_from_code_frequency username repo_name).
Proof. apply keeps_code_frequency_poll. Qed.

Lemma keeps_sample_commits repo_name commits totals :
  keeps R (sample_commits repo_name commits totals).
Proof.
  revert totals. induction commits as [|c rest IH]; intros totals; simpl.
  - frame.
  - frame; apply IH.
Qed.

Lemma keeps_commits_sample repo_name :
  keeps R (_get_stats_from_commits_sample username repo_name).
Proof.
  unfold _get_stats_from_commits_sample.
  pose proof (keeps_user_commits_sample repo_name).
  frame; apply keeps_sample_commits.
Qed.

Lemma keeps_cascade repo_name : keeps R (cascade username repo_name).
Proof.
  unfold cascade.
  pose proof (keeps_contributors repo_name).
  pose proof (keeps_code_frequency repo_name).
  pose proof (keeps_commits_sample repo_name). frame.
Qed.

End FrameStrategies.

(** The log only grows, at its end. *)
Definition log_extends (w w' : world) : Prop :=
  exists events, log w' = log w ++ events.

#[local] Instance log_extends_frame : Frame log_extends.
Proof.
  split.
  - intros w. exists []. now rewrite app_nil_r.
  - intros a b c [e1 H1] [e2 H2]. exists (e1 ++ e2).
    now rewrite H2, H1, app_assoc.
  - intros e w. now exists [e].
  - intros s w. exists []. simpl. now rewrite app_nil_r.
  - intros d w. exists []. simpl. now rewrite app_nil_r.
Qed.

(** The strategies never write to the cache. *)
Definition same_cache (w w' : world) : Prop := cache w' = cache w.

#[local] Instance same_cache_frame : Frame same_cache.
Proof.
  split; unfold same_cache; try reflexivity.
  intros a b c H1 H2. now rewrite H2.
Qed.

(** ** Computations that cannot raise *)

Definition total {A} (m : M A) : Prop :=
  forall w, exists a w', m w = (Ok a, w').

Lemma total_ret {A} (a : A) : total (ret a).
Proof. intros w. now exists a, w. Qed.

Lemma total_sleep d : total (do_sleep d).
Proof. intros w. now exists tt, (sleep d w). Qed.

Lemma total_request u params allow : total (_make_request u params allow).
Proof. intros w. apply make_request_total. Qed.

Lemma total_try {A} (m : M A) (fallback : A) : total (try_except m fallback).
Proof.
  intros w. unfold try_except. destruct (m w) as [[a|e] w']; eauto.
Qed.

Lemma total_bind {A B} (m : M A) (k : A -> M B) :
  total m -> (forall a, total (k a)) -> total (bind m k).
Proof.
  intros Hm Hk w. unfold bind. destruct (Hm w) as (a & w1 & ->). apply Hk.
Qed.

Ltac total_step :=
  first
    [ assumption
    | match goal with
      | |- forall _, total _ => intros ?
      end
    | apply total_ret
    | apply total_sleep
    | apply total_request
    | apply total_try
    | apply total_bind
    | match goal with
      | |- total (match ?x with _ => _ end) => destruct x
      end ].

Lemma total_contributors_poll username attempts repo_name :
  total (contributors_poll username attempts repo_name).
Proof. induction attempts as [|n IH]; simpl; repeat total_step. Qed.

Lemma total_code_frequency_poll username attempts repo_name :
  total (code_frequency_poll username attempts repo_name).
Proof. induction attempts as [|n IH]; simpl; repeat total_step. Qed.

Lemma total_user_commits_sample username repo_name :
  total (_get_user_commits_sample username repo_name).
Proof. apply total_try. Qed.

(** ** The request client: rate limits and the fixed delay *)



Definition world_at (now : Z) (script : list outcome) : world :=
  {| clock := now; net := script; log := []; cache := ∅ |}.


Definition not_found : response :=
  {| status_code := 404;
     text := "Not Found";
     x_ratelimit_reset := HAbsent;
     body := Some (JObj [("message", JStr "Not Found")]) |}.

(** C6, as stated, fails: a call without [allow_non_200] that obtains a
    404 response yields absent at once; the log holds the request and no
    sleep, and the clock has not moved, where the claim wants the fixed
    delay first. *)
Lemma refused_response_is_not_followed_by_delay :
  rate_limited not_found = false
  /\ _make_request (Commits "o/r") None false
       (world_at 1000 [Resp not_found])
     = (Ok None,
        {| clock := 1000; net := [];
           log := [EGet (Commits "o/r") None]; cache := ∅ |})
  /\ {| clock := 1000; net := [];
        log := [EGet (Commits "o/r") None]; cache := ∅ |}
     <> sleep RATE_LIMIT_DELAY
          (sent (Commits "o/r") None [] (world_at 1000 [Resp not_found])).
Proof.
  repeat split. intros H. apply (f_equal clock) in H. discriminate H.
Qed.

(** C6, amended. A call whose response goes back to the caller
    ([allow_non_200] set, or status 200) sleeps the fixed delay as its
    last step; a call without [allow_non_200] whose response has another
    status yields absent with no delay at all; and an attempt answered by
    a rate-limit response sleeps the rate-limit wait only, the retry
    starting right after it. *)
Theorem fixed_delay_follows_returned_responses
    u params allow w r rest :
  net w = Resp r :: rest ->
  (rate_limited r = false ->
   allow = true \/ status_code r = 200 ->
   exists w',
     _make_request u params allow w = (Ok (Some r), w')
     /\ log w' = log w ++ [EGet u params; ESleep RATE_LIMIT_DELAY]
     /\ clock w' = clock w + RATE_LIMIT_DELAY)
  /\ (rate_limited r = false ->
      allow = false ->
      status_code r <> 200 ->
      exists w',
        _make_request u params allow w = (Ok None, w')
        /\ log w' = log w ++ [EGet u params]
        /\ clock w' = clock w)
  /\ (rate_limited r = true ->
      forall reset_time,
        reset_time_of (x_ratelimit_reset r) = Ok reset_time ->
        exists w',
          _make_request u params allow w = _make_request u params allow w'
          /\ log w'
             = log w
               ++ [EGet u params; ESleep (Z.max (reset_time - clock w) 60)]
          /\ net w' = rest).
Proof.
  intros Hnet. split; [|split].
  - intros Hrl Hret. eexists. split; [eapply make_request_returned; eassumption|].
    simpl. now rewrite <- app_assoc.
  - intros Hrl -> Hst. eexists. split; [eapply make_request_refused; eassumption|].
    now simpl.
  - intros Hrl reset_time Hreset. eexists.
    split; [eapply make_request_retry; eassumption|].
    simpl. now rewrite <- app_assoc.
Qed.

Definition ok_response (v : json) : response :=
  {| status_code := 200; text := ""; x_ratelimit_reset := HAbsent;
     body := Some v |}.

Lemma fixed_delay_follows_returned_responses_witness :
  exists w',
    _make_request (Commits "o/r") None false
      (world_at 1000 [Resp (ok_response (JArr []))])
    = (Ok (Some (ok_response (JArr []))), w')
    /\ log w' = [EGet (Commits "o/r") None; ESleep RATE_LIMIT_DELAY]
    /\ clock w' = 1000 + RATE_LIMIT_DELAY.
Proof.
  apply (proj1 (fixed_delay_follows_returned_responses
                  (Commits "o/r") None false
                  (world_at 1000 [Resp (ok_response (JArr []))])
                  (ok_response (JArr [])) [] eq_refl)).
  - reflexivity.
  - right. reflexivity.
Defined.

(** ** The contributor-stats strategy *)

Lemma other_status_not_rate_limited r :
  status_code r <> 403 -> rate_limited r = false.
Proof.
  intros H. unfold rate_limited. apply Z.eqb_neq in H. now rewrite H.
Qed.

Lemma present_below_400 r :
  status_code r < 400 -> present (Some r) = Some r.
Proof.
  intros H. unfold present, response_ok.
  apply Z.leb_gt in H. now rewrite H.
Qed.

(** What one poll answered by 202 adds to the log. *)
Definition pending_poll (u : url) : list event :=
  [EGet u None; ESleep RATE_LIMIT_DELAY; ESleep STATS_RETRY_DELAY].

Lemma contributors_poll_pending username repo_name rest attempts :
  forall polls w,
    length polls = attempts ->
    Forall (fun r => status_code r = 202) polls ->
    net w = map Resp polls ++ rest ->
    exists w',
      contributors_poll username attempts repo_name w = (Ok (0, 0), w')
      /\ net w' = rest
      /\ log w'
         = log w
           ++ concat (replicate attempts
                        (pending_poll (StatsContributors repo_name)))
      /\ clock w'
         = clock w
           + Z.of_nat attempts * (RATE_LIMIT_DELAY + STATS_RETRY_DELAY)
      /\ cache w' = cache w.
Proof.
  induction attempts as [|n IH]; intros polls w Hlen Hall Hnet.
  - destruct polls; [|discriminate]. exists w. simpl in *.
    rewrite app_nil_r. repeat split; trivial. lia.
  - destruct polls as [|r polls]; [discriminate|].
    inversion Hall as [|? ? Hr Hpolls]; subst.
    injection Hlen as Hlen. simpl in Hnet.
    cbn [contributors_poll]. unfold bind at 1.
    rewrite (make_request_returned _ _ _ _ r (map Resp polls ++ rest));
      [|assumption|apply other_status_not_rate_limited; lia|now left].
    rewrite present_below_400 by lia. rewrite Hr.
    change (202 =? 200) with false. change (202 =? 202) with true.
    cbv iota. unfold bind, do_sleep.
    destruct (IH polls
                (sleep STATS_RETRY_DELAY
                   (sleep RATE_LIMIT_DELAY
                      (sent (StatsContributors repo_name) None
                         (map Resp polls ++ rest) w))))
      as (w' & Hrun & Hnet' & Hlog & Hclock & Hcache); trivial.
    exists w'. rewrite Hrun. repeat split; trivial.
    + rewrite Hlog. simpl. unfold pending_poll.
      repeat rewrite <- app_assoc. reflexivity.
    + rewrite Hclock. simpl clock.
      unfold RATE_LIMIT_DELAY, STATS_RETRY_DELAY. lia.
Qed.

(** C8. When the contributor-activity endpoint answers 202 to six polls
    in a row, the strategy makes exactly those six requests, sleeps the
    retry delay after each of them, and returns (0, 0) without raising. *)
Theorem contributors_pending_six_polls_then_zero
    username repo_name w polls rest :
  net w = map Resp polls ++ rest ->
  length polls = 6%nat ->
  Forall (fun r => status_code r = 202) polls ->
  exists w',
    _get_stats_from_contributors_with_retry username repo_name w
    = (Ok (0, 0), w')
    /\ net w' = rest
    /\ log w'
       = log w
         ++ concat (replicate 6 (pending_poll (StatsContributors repo_name)))
    /\ clock w' = clock w + 6 * (RATE_LIMIT_DELAY + STATS_RETRY_DELAY)
    /\ cache w' = cache w.
Proof.
  intros Hnet Hlen Hall.
  apply (contributors_poll_pending username repo_name rest 6 polls w);
    assumption.
Qed.

Definition pending_response : response :=
  {| status_code := 202; text := "{}"; x_ratelimit_reset := HAbsent;
     body := Some (JObj []) |}.

Lemma contributors_pending_six_polls_then_zero_witness :
  exists w',
    _get_stats_from_contributors_with_retry "alice" "o/r"
      (world_at 1000
         (map Resp (replicate 6 pending_response)
          ++ [Resp (ok_response (JArr []))]))
    = (Ok (0, 0), w')
    /\ net w' = [Resp (ok_response (JArr []))]
    /\ log w'
       = log (world_at 1000
                (map Resp (replicate 6 pending_response)
                 ++ [Resp (ok_response (JArr []))]))
         ++ concat (replicate 6 (pending_poll (StatsContributors "o/r")))
    /\ clock w'
       = clock (world_at 1000
                  (map Resp (replicate 6 pending_response)
                   ++ [Resp (ok_response (JArr []))]))
         + 6 * (RATE_LIMIT_DELAY + STATS_RETRY_DELAY)
    /\ cache w'
       = cache (world_at 1000
                  (map Resp (replicate 6 pending_response)
                   ++ [Resp (ok_response (JArr []))])).
Proof.
  apply (contributors_pending_six_polls_then_zero "alice" "o/r"
           (world_at 1000
              (map Resp (replicate 6 pending_response)
               ++ [Resp (ok_response (JArr []))]))
           (replicate 6 pending_response)
           [Resp (ok_response (JArr []))]).
  - reflexivity.
  - reflexivity.
  - repeat constructor.
Defined.

Definition zsum (l : list Z) : Z := fold_right Z.add 0 l.















Definition week (a d : Z) : json :=
  JObj [("w", JInt 1367712000); ("a", JInt a); ("d", JInt d);
        ("c", JInt 1)].

Definition contributor (login : string) (weeks : list json) : json :=
  JObj [("author", JObj [("login", JStr login); ("id", JInt 1)]);
        ("total", JInt (Z.of_nat (length weeks)));
        ("weeks", JArr weeks)].


(** ** The code-frequency strategy *)

Definition author_query (username : string) : query :=
  Some [("author", JStr username); ("per_page", JInt 10)].

Definition one_commit_query : query := Some [("per_page", JInt 1)].

(** The world in which the strategy issues its third request: the
    frequency endpoint and the author-filtered commit sample have both
    been answered, each followed by the fixed delay. *)
Definition before_listing (username repo_name : string)
    (sample : outcome) (rest : list outcome) (w : world) : world :=
  sleep RATE_LIMIT_DELAY
    (sent (Commits repo_name) (author_query username) rest
       (sleep RATE_LIMIT_DELAY
          (sent (StatsCodeFrequency repo_name) None (sample :: rest) w))).

(** The estimate once the listing request has returned a response;
    anything raised on the way is caught and gives (0, 0). *)
Definition estimate (total_additions total_deletions user_commits : Z)
  : Z * Z :=
  match
    (let? factor := scaling_factor user_commits in
     let? estimated_additions := scaled total_additions factor in
     let? estimated_deletions := scaled total_deletions factor in
     Ok (estimated_additions, estimated_deletions))
  with
  | Ok stats => stats
  | Raise _ => (0, 0)
  end.

Lemma code_frequency_poll_200 username repo_name w r rest :
  net w = Resp r :: rest ->
  status_code r = 200 ->
  _get_stats_from_code_frequency username repo_name w
  = try_except (estimate_from_frequency username repo_name r) (0, 0)
      (sleep RATE_LIMIT_DELAY
         (sent (StatsCodeFrequency repo_name) None rest w)).
Proof.
  intros Hnet Hst.
  unfold _get_stats_from_code_frequency, MAX_STATS_RETRIES.
  cbn [code_frequency_poll]. unfold bind.
  rewrite (make_request_returned _ _ _ _ r rest);
    [|assumption|apply other_status_not_rate_limited; lia|now left].
  rewrite present_below_400 by lia. rewrite Hst.
  change (200 =? 200) with true. reflexivity.
Qed.

Lemma user_commits_sample_200 username repo_name w r rest commits :
  net w = Resp r :: rest ->
  status_code r = 200 ->
  body r = Some commits ->
  _get_user_commits_sample username repo_name w
  = (Ok commits,
     sleep RATE_LIMIT_DELAY
       (sent (Commits repo_name) (author_query username) rest w)).
Proof.
  intros Hnet Hst Hbody.
  unfold _get_user_commits_sample, try_except, bind.
  rewrite (make_request_returned _ _ _ _ r rest);
    [|assumption|apply other_status_not_rate_limited; lia|now right].
  rewrite present_below_400 by lia.
  unfold lift, response_json. now rewrite Hbody.
Qed.

(** With frequency data and a non-empty sample at hand, the strategy is
    decided by its third request alone. *)
Lemma code_frequency_after_sample
    username repo_name w r1 r2 rest weeks commits ta td :
  net w = Resp r1 :: Resp r2 :: rest ->
  status_code r1 = 200 ->
  body r1 = Some (JArr weeks) ->
  weeks <> [] ->
  weekly_additions (JArr weeks) = Ok ta ->
  weekly_deletions (JArr weeks) = Ok td ->
  status_code r2 = 200 ->
  body r2 = Some (JArr commits) ->
  commits <> [] ->
  _get_stats_from_code_frequency username repo_name w
  = match
      _make_request (Commits repo_name) one_commit_query false
        (before_listing username repo_name (Resp r2) rest w)
    with
    | (Ok (Some _), w3) => (Ok (estimate ta td (Z.of_nat (length commits))), w3)
    | (_, w3) => (Ok (0, 0), w3)
    end.
Proof.
  intros Hnet Hst1 Hbody1 Hweeks Hta Htd Hst2 Hbody2 Hcommits.
  rewrite (code_frequency_poll_200 username repo_name w r1 (Resp r2 :: rest))
    by assumption.
  unfold try_except, estimate_from_frequency.
  unfold bind at 1. unfold lift at 1. unfold response_json. rewrite Hbody1.
  replace (truthy (JArr weeks)) with true by (now destruct weeks).
  cbn [negb]. unfold bind at 1.
  rewrite (user_commits_sample_200 username repo_name _ r2 rest (JArr commits))
    by (assumption || reflexivity).
  replace (truthy (JArr commits)) with true by (now destruct commits).
  cbn [negb]. unfold bind at 1. unfold lift at 1. rewrite Hta.
  unfold bind at 1. unfold lift at 1. rewrite Htd.
  unfold bind at 1. unfold lift at 1. cbn [py_len].
  replace (0 <? Z.of_nat (length commits)) with true
    by (destruct commits; [contradiction|reflexivity]).
  unfold bind at 1. fold one_commit_query.
  change (sleep RATE_LIMIT_DELAY
            (sent (Commits repo_name) (author_query username) rest
               (sleep RATE_LIMIT_DELAY
                  (sent (StatsCodeFrequency repo_name) None
                     (Resp r2 :: rest) w))))
    with (before_listing username repo_name (Resp r2) rest w).
  destruct (_make_request (Commits repo_name) one_commit_query false
              (before_listing username repo_name (Resp r2) rest w))
    as [[[r3|]|e] w3] eqn:Hreq.
  - rewrite present_below_400
      by (rewrite (make_request_status _ _ _ _ _ Hreq); lia).
    unfold estimate, bind, lift, ret.
    destruct (scaling_factor (Z.of_nat (length commits))) as [f|]; simpl;
      [|reflexivity].
    destruct (scaled ta f); simpl; [|reflexivity].
    destruct (scaled td f); reflexivity.
  - reflexivity.
  - destruct (make_request_total (Commits repo_name) one_commit_query false
                (before_listing username repo_name (Resp r2) rest w))
      as (o & w' & Heq).
    rewrite Heq in Hreq. discriminate.
Qed.

(** Every call of the client logs its request first. *)
Lemma make_request_log_head u params allow w :
  exists tail,
    log (snd (_make_request u params allow w))
    = log w ++ EGet u params :: tail.
Proof.
  unfold _make_request.
  destruct (request_loop (net w) u params allow w) as [o w'] eqn:E.
  cut (log_extends (emit (EGet u params) w) w').
  { intros [tail H]. exists tail. simpl in *. now rewrite H, <- app_assoc. }
  replace w' with (snd (request_loop (net w) u params allow w))
    by now rewrite E.
  clear E. destruct (net w) as [|[r|] rest]; simpl;
    try (apply (frame_set_net (R := log_extends))).
  destruct (rate_limited r).
  - destruct (reset_time_of (x_ratelimit_reset r));
      [|apply (frame_set_net (R := log_extends))].
    eapply (frame_trans (R := log_extends));
      [|apply (frame_request_loop log_extends)].
    eapply (frame_trans (R := log_extends));
      [apply (frame_set_net (R := log_extends))
      |apply (frame_sleep log_extends)].
  - destruct allow; [|destruct (status_code r =? 200)];
      try apply (frame_set_net (R := log_extends));
      (eapply (frame_trans (R := log_extends));
       [apply (frame_set_net (R := log_extends))
       |apply (frame_sleep log_extends)]).
Qed.

(** C9. Once the frequency endpoint has returned 200 with data and the
    author-filtered sample is not empty, the strategy issues one more
    request, for the commit listing with [per_page=1]; when that request
    yields absent, the strategy returns (0, 0). *)
Theorem code_frequency_needs_commit_listing
    username repo_name w r1 r2 rest weeks commits ta td :
  net w = Resp r1 :: Resp r2 :: rest ->
  status_code r1 = 200 ->
  body r1 = Some (JArr weeks) ->
  weeks <> [] ->
  weekly_additions (JArr weeks) = Ok ta ->
  weekly_deletions (JArr weeks) = Ok td ->
  status_code r2 = 200 ->
  body r2 = Some (JArr commits) ->
  commits <> [] ->
  log (before_listing username repo_name (Resp r2) rest w)
  = log w
    ++ [EGet (StatsCodeFrequency repo_name) None; ESleep RATE_LIMIT_DELAY;
        EGet (Commits repo_name) (author_query username);
        ESleep RATE_LIMIT_DELAY]
  /\ (exists tail,
        log (snd (_get_stats_from_code_frequency username repo_name w))
        = log (before_listing username repo_name (Resp r2) rest w)
          ++ EGet (Commits repo_name) one_commit_query :: tail)
  /\ (forall w3,
        _make_request (Commits repo_name) one_commit_query false
          (before_listing username repo_name (Resp r2) rest w)
        = (Ok None, w3) ->
        _get_stats_from_code_frequency username repo_name w
        = (Ok (0, 0), w3)).
Proof.
  intros Hnet Hst1 Hbody1 Hweeks Hta Htd Hst2 Hbody2 Hcommits.
  rewrite (code_frequency_after_sample username repo_name w r1 r2 rest
             weeks commits ta td) by assumption.
  split; [|split].
  - simpl. repeat rewrite <- app_assoc. reflexivity.
  - destruct (make_request_log_head (Commits repo_name) one_commit_query
                false (before_listing username repo_name (Resp r2) rest w))
      as [tail Htail].
    exists tail. rewrite <- Htail.
    now destruct (_make_request (Commits repo_name) one_commit_query false
                    (before_listing username repo_name (Resp r2) rest w))
      as [[[r3|]|e] w3].
  - intros w3 Hreq. now rewrite Hreq.
Qed.

Definition week_row (w a d : Z) : json := JArr [JInt w; JInt a; JInt d].

Definition commit_ref (sha : string) : json :=
  JObj [("sha", JStr sha); ("commit", JObj [("message", JStr "fix")])].

(** The frequency data and a sample of three commits are there, the
    listing answers 404. *)
Definition listing_refused : world :=
  world_at 1000
    [Resp (ok_response (JArr [week_row 1367712000 1000 (-400)]));
     Resp (ok_response
             (JArr [commit_ref "a1"; commit_ref "b2"; commit_ref "c3"]));
     Resp not_found].

Lemma code_frequency_needs_commit_listing_witness :
  _get_stats_from_code_frequency "alice" "o/r" listing_refused
  = (Ok (0, 0),
     sent (Commits "o/r") one_commit_query []
       (before_listing "alice" "o/r"
          (Resp (ok_response
                   (JArr [commit_ref "a1"; commit_ref "b2";
                          commit_ref "c3"])))
          [Resp not_found] listing_refused)).
Proof.
  apply (proj2 (proj2
           (code_frequency_needs_commit_listing "alice" "o/r"
              listing_refused
              (ok_response (JArr [week_row 1367712000 1000 (-400)]))
              (ok_response
                 (JArr [commit_ref "a1"; commit_ref "b2"; commit_ref "c3"]))
              [Resp not_found]
              [week_row 1367712000 1000 (-400)]
              [commit_ref "a1"; commit_ref "b2"; commit_ref "c3"]
              1000 400
              eq_refl eq_refl eq_refl ltac:(discriminate) eq_refl eq_refl
              eq_refl eq_refl ltac:(discriminate)))).
  reflexivity.
Defined.

(** The weekly [timestamp, additions, deletions] rows of the frequency
    endpoint. *)
Definition frequency_rows (rows : list (Z * Z * Z)) : list json :=
  map (fun '(w, a, d) => week_row w a d) rows.

Definition additions_of (rows : list (Z * Z * Z)) : list Z :=
  map (fun '(_, a, _) => a) rows.

Definition deletions_of (rows : list (Z * Z * Z)) : list Z :=
  map (fun '(_, _, d) => d) rows.

Lemma sum_column_additions rows acc :
  sum_column 1 (frequency_rows rows) acc
  = Ok (acc + zsum (additions_of rows)).
Proof.
  revert acc. induction rows as [|[[w a] d] rows IH]; intros acc.
  - simpl. f_equal. lia.
  - change (sum_column 1 (frequency_rows ((w, a, d) :: rows)) acc)
      with (sum_column 1 (frequency_rows rows) (acc + a)).
    change (zsum (additions_of ((w, a, d) :: rows)))
      with (a + zsum (additions_of rows)).
    rewrite IH. f_equal. lia.
Qed.

Lemma sum_column_deletions rows acc :
  sum_column 2 (frequency_rows rows) acc
  = Ok (acc + zsum (deletions_of rows)).
Proof.
  revert acc. induction rows as [|[[w a] d] rows IH]; intros acc.
  - simpl. f_equal. lia.
  - change (sum_column 2 (frequency_rows ((w, a, d) :: rows)) acc)
      with (sum_column 2 (frequency_rows rows) (acc + d)).
    change (zsum (deletions_of ((w, a, d) :: rows)))
      with (d + zsum (deletions_of rows)).
    rewrite IH. f_equal. lia.
Qed.

(** C4, as stated, fails: the frequency endpoint returned 200 with a
    week of 1000 additions and 400 deletions and the sample holds three
    commits, yet the result is (0, 0) and not the scaled totals
    (30, 12), because the request for the commit listing was refused. *)
Lemma code_frequency_zero_despite_data :
  weekly_additions (JArr [week_row 1367712000 1000 (-400)]) = Ok 1000
  /\ weekly_deletions (JArr [week_row 1367712000 1000 (-400)]) = Ok 400
  /\ estimate 1000 400 3 = (30, 12)
  /\ fst (_get_stats_from_code_frequency "alice" "o/r" listing_refused)
     = Ok (0, 0).
Proof. repeat split. Qed.

(** C4, amended. When the frequency endpoint returns 200 with weekly
    rows, the user's commit sample is not empty and the request for the
    commit listing returns a response, the result is the pair of
    [int(total * min(user_commits / 100, 0.5))] for the sum of the weekly
    additions and for the absolute value of the sum of the weekly
    deletions, in binary64 arithmetic. *)
Theorem code_frequency_scales_weekly_totals
    username repo_name w r1 r2 rest rows commits r3 w3
    factor estimated_additions estimated_deletions :
  net w = Resp r1 :: Resp r2 :: rest ->
  status_code r1 = 200 ->
  body r1 = Some (JArr (frequency_rows rows)) ->
  rows <> [] ->
  status_code r2 = 200 ->
  body r2 = Some (JArr commits) ->
  commits <> [] ->
  _make_request (Commits repo_name) one_commit_query false
    (before_listing username repo_name (Resp r2) rest w)
  = (Ok (Some r3), w3) ->
  scaling_factor (Z.of_nat (length commits)) = Ok factor ->
  scaled (zsum (additions_of rows)) factor = Ok estimated_additions ->
  scaled (Z.abs (zsum (deletions_of rows))) factor
  = Ok estimated_deletions ->
  _get_stats_from_code_frequency username repo_name w
  = (Ok (estimated_additions, estimated_deletions), w3).
Proof.
  intros Hnet Hst1 Hbody1 Hrows Hst2 Hbody2 Hcommits Hreq Hf Ha Hd.
  rewrite (code_frequency_after_sample username repo_name w r1 r2 rest
             (frequency_rows rows) commits
             (zsum (additions_of rows)) (Z.abs (zsum (deletions_of rows))));
    trivial.
  - rewrite Hreq. unfold estimate. rewrite Hf. simpl. rewrite Ha. simpl.
    rewrite Hd. reflexivity.
  - destruct rows; [contradiction|discriminate].
  - unfold weekly_additions, py_iter. simpl rbind.
    now rewrite sum_column_additions.
  - unfold weekly_deletions, py_iter. simpl rbind.
    now rewrite sum_column_deletions.
Qed.

(** The same data and sample, the listing answered. *)
Definition listing_answered : world :=
  world_at 1000
    [Resp (ok_response (JArr (frequency_rows [(1367712000, 1000, -400)])));
     Resp (ok_response
             (JArr [commit_ref "a1"; commit_ref "b2"; commit_ref "c3"]));
     Resp (ok_response (JArr [commit_ref "z9"]))].

Lemma code_frequency_scales_weekly_totals_witness :
  _get_stats_from_code_frequency "alice" "o/r" listing_answered
  = (Ok (30, 12),
     sleep RATE_LIMIT_DELAY
       (sent (Commits "o/r") one_commit_query []
          (before_listing "alice" "o/r"
             (Resp (ok_response
                      (JArr [commit_ref "a1"; commit_ref "b2";
                             commit_ref "c3"])))
             [Resp (ok_response (JArr [commit_ref "z9"]))]
             listing_answered))).
Proof.
  apply (code_frequency_scales_weekly_totals "alice" "o/r"
           listing_answered
           (ok_response (JArr (frequency_rows [(1367712000, 1000, -400)])))
           (ok_response
              (JArr [commit_ref "a1"; commit_ref "b2"; commit_ref "c3"]))
           [Resp (ok_response (JArr [commit_ref "z9"]))]
           [(1367712000, 1000, -400)]
           [commit_ref "a1"; commit_ref "b2"; commit_ref "c3"]
           (ok_response (JArr [commit_ref "z9"]))
           _
           (S754_finite false 8646911284551352 (-58)));
    try reflexivity; discriminate.
Defined.

(** ** The cache and the cascade *)

(** The world after [self.cache[cache_key] = {...}]. *)
Definition stored (key : string) (stats : Z * Z) (w : world) : world :=
  set_cache (<[key := cache_entry stats (clock w)]> (cache w)) w.

Definition as_json (stats : Z * Z) : json * json :=
  (JInt (fst stats), JInt (snd stats)).

Lemma cache_check_world key w : snd (cache_check key w) = w.
Proof. unfold cache_check. now destruct (cache w !! key). Qed.

Lemma get_repository_stats_miss username r w :
  cache_check (cache_key (full_name r)) w = (Ok None, w) ->
  get_repository_stats username r w = analyze username (full_name r) w.
Proof.
  intros H. unfold get_repository_stats, bind at 1. now rewrite H.
Qed.

Lemma analyze_stores username repo_name w stats w' :
  cascade username repo_name w = (Ok stats, w') ->
  analyze username repo_name w
  = (Ok (as_json stats), stored (cache_key repo_name) stats w').
Proof.
  intros H. unfold analyze, bind at 1. now rewrite H.
Qed.

(** [additions == 0 and deletions == 0] says that the pair is (0, 0). *)
Lemma is_zero_true stats : is_zero stats = true <-> stats = (0, 0).
Proof.
  destruct stats as [a d]. unfold is_zero. simpl.
  rewrite andb_true_iff, !Z.eqb_eq. split.
  - now intros [-> ->].
  - now intros [= -> ->].
Qed.

Lemma is_zero_false stats : is_zero stats = false <-> stats <> (0, 0).
Proof.
  rewrite <- is_zero_true. now destruct (is_zero stats).
Qed.

(** C1. On a cache miss the three strategies run in the order
    contributor-stats, code-frequency, commit-sampling, each one only
    when the ones before it returned (0, 0); the first result other than
    (0, 0), or else whatever commit-sampling returns, is the answer, and
    the world the call returns in holds that answer under the
    repository's key, stamped with the clock of that moment. *)
Theorem cascade_order_and_cache_write username r w :
  cache_check (cache_key (full_name r)) w = (Ok None, w) ->
  (exists s1 w1,
     _get_stats_from_contributors_with_retry username (full_name r) w
     = (Ok s1, w1)
     /\ (s1 <> (0, 0) ->
         get_repository_stats username r w
         = (Ok (as_json s1), stored (cache_key (full_name r)) s1 w1))
     /\ (s1 = (0, 0) ->
         exists s2 w2,
           _get_stats_from_code_frequency username (full_name r) w1
           = (Ok s2, w2)
           /\ (s2 <> (0, 0) ->
               get_repository_stats username r w
               = (Ok (as_json s2), stored (cache_key (full_name r)) s2 w2))
           /\ (s2 = (0, 0) ->
               forall s3 w3,
                 _get_stats_from_commits_sample username (full_name r) w2
                 = (Ok s3, w3) ->
                 get_repository_stats username r w
                 = (Ok (as_json s3),
                    stored (cache_key (full_name r)) s3 w3))))
  /\ (forall stats w',
        cache (stored (cache_key (full_name r)) stats w')
        !! cache_key (full_name r)
        = Some (JObj [("additions", JInt (fst stats));
                      ("deletions", JInt (snd stats));
                      ("timestamp", JInt (clock w'))])).
Proof.
  intros Hmiss. split; [|intros stats w'; apply lookup_insert_eq].
  rewrite (get_repository_stats_miss username r w Hmiss).
  destruct (total_contributors_poll username MAX_STATS_RETRIES
              (full_name r) w) as (s1 & w1 & H1).
  fold (_get_stats_from_contributors_with_retry username (full_name r)) in H1.
  exists s1, w1. split; [exact H1|]. split.
  - intros Hz. apply is_zero_false in Hz.
    apply analyze_stores. unfold cascade, bind.
    rewrite H1, Hz. unfold ret. now rewrite Hz.
  - intros Hz1. apply is_zero_true in Hz1.
    destruct (total_code_frequency_poll username MAX_STATS_RETRIES
                (full_name r) w1) as (s2 & w2 & H2).
    fold (_get_stats_from_code_frequency username (full_name r)) in H2.
    exists s2, w2. split; [exact H2|]. split.
    + intros Hz2. apply is_zero_false in Hz2.
      apply analyze_stores. unfold cascade, bind.
      now rewrite H1, Hz1, H2, Hz2.
    + intros Hz2 s3 w3 H3. apply is_zero_true in Hz2.
      apply analyze_stores. unfold cascade, bind.
      now rewrite H1, Hz1, H2, Hz2.
Qed.

Definition no_content : response :=
  {| status_code := 204; text := ""; x_ratelimit_reset := HAbsent;
     body := None |}.

(** Nothing cached; the contributor endpoint has the user's weeks, and
    the answers that follow are those the other strategies would get. *)
Definition contributors_known : world :=
  world_at 1700000000
    [Resp (ok_response
             (JArr [contributor "alice" [week 50 10; week 30 5]]));
     Resp (ok_response (JArr (frequency_rows [(1367712000, 1000, -400)])));
     Resp (ok_response (JArr [commit_ref "a1"]))].

(** Nothing cached; the contributor endpoint has no data (204), the
    frequency endpoint has a week, the sample three commits and the
    listing an answer; one more answer follows. *)
Definition frequency_known : world :=
  world_at 1700000000
    [Resp no_content;
     Resp (ok_response (JArr (frequency_rows [(1367712000, 1000, -400)])));
     Resp (ok_response
             (JArr [commit_ref "a1"; commit_ref "b2"; commit_ref "c3"]));
     Resp (ok_response (JArr [commit_ref "z9"]));
     Resp (ok_response (JArr [commit_ref "a1"]))].

(** Nothing cached; the contributor endpoint has no data (204), the
    frequency endpoint neither, and the commit sample is empty. *)
Definition nothing_anywhere : world :=
  world_at 1700000000
    [Resp {| status_code := 204; text := ""; x_ratelimit_reset := HAbsent;
             body := None |};
     Resp {| status_code := 204; text := ""; x_ratelimit_reset := HAbsent;
             body := None |};
     Resp (ok_response (JArr []))].

(** The cascade stopped by the first strategy, by the second, and run to
    its end with (0, 0): the answers of the strategies that were not
    tried are still to come. *)
Lemma cascade_order_and_cache_write_witness :
  get_repository_stats "alice" {| full_name := "o/r" |} contributors_known
  = (Ok (JInt 80, JInt 15),
     {| clock := 1700000001;
        net := [Resp (ok_response
                        (JArr (frequency_rows [(1367712000, 1000, -400)])));
                Resp (ok_response (JArr [commit_ref "a1"]))];
        log := [EGet (StatsContributors "o/r") None; ESleep 1];
        cache := {[ "repo_stats_o/r_v2"
                    := JObj [("additions", JInt 80); ("deletions", JInt 15);
                             ("timestamp", JInt 1700000001)] ]} |})
  /\ get_repository_stats "alice" {| full_name := "o/r" |} frequency_known
     = (Ok (JInt 30, JInt 12),
        {| clock := 1700000004;
           net := [Resp (ok_response (JArr [commit_ref "a1"]))];
           log := [EGet (StatsContributors "o/r") None; ESleep 1;
                   EGet (StatsCodeFrequency "o/r") None; ESleep 1;
                   EGet (Commits "o/r") (author_query "alice"); ESleep 1;
                   EGet (Commits "o/r") one_commit_query; ESleep 1];
           cache := {[ "repo_stats_o/r_v2"
                       := JObj [("additions", JInt 30);
                                ("deletions", JInt 12);
                                ("timestamp", JInt 1700000004)] ]} |})
  /\ get_repository_stats "alice" {| full_name := "o/r" |} nothing_anywhere
     = (Ok (JInt 0, JInt 0),
        {| clock := 1700000003;
           net := [];
           log := [EGet (StatsContributors "o/r") None; ESleep 1;
                   EGet (StatsCodeFrequency "o/r") None; ESleep 1;
                   EGet (Commits "o/r") (author_query "alice"); ESleep 1];
           cache := {[ "repo_stats_o/r_v2"
                       := JObj [("additions", JInt 0); ("deletions", JInt 0);
                                ("timestamp", JInt 1700000003)] ]} |}).
Proof.
  split; [|split].
  - destruct (proj1 (cascade_order_and_cache_write "alice"
                       {| full_name := "o/r" |} contributors_known eq_refl))
      as (s1 & w1 & H1 & Hstop & _).
    injection H1 as <- <-.
    exact (Hstop ltac:(discriminate)).
  - destruct (proj1 (cascade_order_and_cache_write "alice"
                       {| full_name := "o/r" |} frequency_known eq_refl))
      as (s1 & w1 & H1 & _ & Hzero).
    injection H1 as <- <-.
    destruct (Hzero eq_refl) as (s2 & w2 & H2 & Hstop & _).
    injection H2 as <- <-.
    exact (Hstop ltac:(discriminate)).
  - destruct (proj1 (cascade_order_and_cache_write "alice"
                       {| full_name := "o/r" |} nothing_anywhere eq_refl))
      as (s1 & w1 & H1 & _ & Hzero).
    injection H1 as <- <-.
    destruct (Hzero eq_refl) as (s2 & w2 & H2 & _ & Hzero2).
    injection H2 as <- <-.
    exact (Hzero2 eq_refl (0, 0) _ eq_refl).
Defined.

(** The first thing [m] adds to the log is [e]. *)
Definition starts_with {A} (e : event) (m : M A) : Prop :=
  forall w, exists tail, log (snd (m w)) = log w ++ e :: tail.

Lemma starts_with_bind {A B} e (m : M A) (k : A -> M B) :
  starts_with e m ->
  (forall a, keeps log_extends (k a)) ->
  starts_with e (bind m k).
Proof.
  intros Hm Hk w. unfold bind. destruct (Hm w) as [tail Htail].
  destruct (m w) as [[a|x] w1]; simpl in Htail; [|now exists tail].
  destruct (Hk a w1) as [more Hmore].
  exists (tail ++ more). rewrite Hmore, Htail, <- app_assoc. reflexivity.
Qed.

Lemma keeps_log_cache_store key stats :
  keeps log_extends (cache_store key stats).
Proof. intros w. exists []. simpl. now rewrite app_nil_r. Qed.

Lemma analyze_starts_with_contributors username repo_name :
  starts_with (EGet (StatsContributors repo_name) None)
    (analyze username repo_name).
Proof.
  unfold analyze. apply starts_with_bind.
  - unfold cascade. apply starts_with_bind.
    + unfold _get_stats_from_contributors_with_retry, MAX_STATS_RETRIES.
      cbn [contributors_poll]. apply starts_with_bind.
      * intros w. apply make_request_log_head.
      * pose proof (keeps_contributors_poll log_extends username 5
                      repo_name).
        frame.
    + pose proof (keeps_code_frequency log_extends username repo_name).
      pose proof (keeps_commits_sample log_extends username repo_name).
      frame.
  - pose proof (keeps_log_cache_store (cache_key repo_name)). frame.
Qed.

(** A cache entry [{"additions": a, "deletions": d, "timestamp": ts}],
    whatever other keys it has. *)
Definition entry_of (entry : json) (ts : Z) (a d : json) : Prop :=
  exists fields,
    entry = JObj fields
    /\ assoc "timestamp" fields = Some (JInt ts)
    /\ assoc "additions" fields = Some a
    /\ assoc "deletions" fields = Some d.

(** C2. An entry of the cache is reused exactly when it exists and
    [now - timestamp < 86400]: then its additions and deletions are
    returned and the world, the log of requests included, is untouched;
    an entry 86400 seconds old or older, like a missing one, sends the
    call through the cascade, which starts with a request to the
    contributor endpoint. *)
Theorem cache_entry_reused_iff_fresh username r w :
  (forall entry ts a d,
     cache w !! cache_key (full_name r) = Some entry ->
     entry_of entry ts a d ->
     (clock w - ts < 86400 ->
      get_repository_stats username r w = (Ok (a, d), w))
     /\ (86400 <= clock w - ts ->
         get_repository_stats username r w
         = analyze username (full_name r) w))
  /\ (cache w !! cache_key (full_name r) = None ->
      get_repository_stats username r w = analyze username (full_name r) w)
  /\ (exists tail,
        log (snd (analyze username (full_name r) w))
        = log w ++ EGet (StatsContributors (full_name r)) None :: tail).
Proof.
  split; [|split].
  - intros entry ts a d Hentry (fields & -> & Hts & Ha & Hd). split.
    + intros Hfresh. unfold get_repository_stats, bind, cache_check.
      rewrite Hentry. simpl. rewrite Hts. simpl.
      apply Z.ltb_lt in Hfresh. rewrite Hfresh. now rewrite Ha, Hd.
    + intros Hold. apply get_repository_stats_miss. unfold cache_check.
      rewrite Hentry. simpl. rewrite Hts. simpl.
      apply Z.ltb_ge in Hold. now rewrite Hold.
  - intros Hnone. apply get_repository_stats_miss. unfold cache_check.
    now rewrite Hnone.
  - apply analyze_starts_with_contributors.
Qed.

(** A cache holding (80, 15) for the repository "o/r", written at
    [written]; the clock reads 1700000000 and the network would answer
    every request of a cascade with an error. *)
Definition cached_world (written : Z) : world :=
  {| clock := 1700000000;
     net := [];
     log := [];
     cache := {[ "repo_stats_o/r_v2"
                 := JObj [("additions", JInt 80); ("deletions", JInt 15);
                          ("timestamp", JInt written)] ]} |}.

Lemma cache_entry_reused_iff_fresh_witness :
  get_repository_stats "alice" {| full_name := "o/r" |}
    (cached_world 1699913601)
  = (Ok (JInt 80, JInt 15), cached_world 1699913601)
  /\ get_repository_stats "alice" {| full_name := "o/r" |}
       (cached_world 1699913600)
     = analyze "alice" "o/r" (cached_world 1699913600).
Proof.
  split.
  - apply (proj1 (proj1 (cache_entry_reused_iff_fresh "alice"
                           {| full_name := "o/r" |}
                           (cached_world 1699913601))
                    _ 1699913601 (JInt 80) (JInt 15) eq_refl
                    (ex_intro _ _
                       (conj eq_refl (conj eq_refl (conj eq_refl eq_refl)))))).
    reflexivity.
  - apply (proj2 (proj1 (cache_entry_reused_iff_fresh "alice"
                           {| full_name := "o/r" |}
                           (cached_world 1699913600))
                    _ 1699913600 (JInt 80) (JInt 15) eq_refl
                    (ex_intro _ _
                       (conj eq_refl (conj eq_refl (conj eq_refl eq_refl)))))).
    discriminate.
Defined.

(** C10. A hit on a valid entry changes nothing: the world after the call
    is the world before it, so the cache has the same entries and the
    reused entry keeps its timestamp. *)
Theorem cache_hit_leaves_cache_unchanged username r w entry ts :
  cache w !! cache_key (full_name r) = Some entry ->
  py_get entry "timestamp" (JInt 0) = Ok (JInt ts) ->
  clock w - ts < 86400 ->
  snd (get_repository_stats username r w) = w
  /\ cache (snd (get_repository_stats username r w)) = cache w
  /\ cache (snd (get_repository_stats username r w))
     !! cache_key (full_name r)
     = Some entry.
Proof.
  intros Hentry Hts Hfresh.
  assert (snd (get_repository_stats username r w) = w) as ->.
  { unfold get_repository_stats, bind, cache_check.
    rewrite Hentry, Hts. simpl. apply Z.ltb_lt in Hfresh. rewrite Hfresh.
    destruct (py_getitem entry "additions"); simpl; trivial.
    destruct (py_getitem entry "deletions"); reflexivity. }
  auto.
Qed.

Lemma cache_hit_leaves_cache_unchanged_witness :
  snd (get_repository_stats "alice" {| full_name := "o/r" |}
         (cached_world 1699990000))
  = cached_world 1699990000
  /\ cache (snd (get_repository_stats "alice" {| full_name := "o/r" |}
                   (cached_world 1699990000)))
     = cache (cached_world 1699990000)
  /\ cache (snd (get_repository_stats "alice" {| full_name := "o/r" |}
                   (cached_world 1699990000)))
     !! cache_key "o/r"
     = Some (JObj [("additions", JInt 80); ("deletions", JInt 15);
                   ("timestamp", JInt 1699990000)]).
Proof.
  apply (cache_hit_leaves_cache_unchanged "alice" {| full_name := "o/r" |}
           (cached_world 1699990000) _ 1699990000);
    reflexivity.
Defined.

(** ** Cache entries with missing or unknown keys *)

(** A cache file whose entry for "o/r" was written ten seconds ago and
    has lost its [additions]. *)
Definition entry_without_additions : world :=
  {| clock := 1700000000;
     net := [Resp (ok_response (JArr []))];
     log := [];
     cache := {[ "repo_stats_o/r_v2"
                 := JObj [("deletions", JInt 15);
                          ("timestamp", JInt 1699999990)] ]} |}.

(** C3. A fresh entry without [additions] is not treated as a miss:
    [cached_data['additions']] raises [KeyError], no request is made and
    the cache keeps the entry. *)
Theorem entry_without_additions_raises :
  get_repository_stats "alice" {| full_name := "o/r" |}
    entry_without_additions
  = (Raise KeyError, entry_without_additions).
Proof. reflexivity. Qed.

(** X1. An entry without [timestamp] reads as written at time 0, hence
    as expired on any clock past the first day, and goes through the
    cascade. *)
Lemma entry_without_timestamp_is_a_miss username r w fields :
  cache w !! cache_key (full_name r) = Some (JObj fields) ->
  assoc "timestamp" fields = None ->
  86400 <= clock w ->
  get_repository_stats username r w = analyze username (full_name r) w.
Proof.
  intros Hentry Hts Hclock. apply get_repository_stats_miss.
  unfold cache_check. rewrite Hentry. simpl. rewrite Hts. simpl.
  replace (clock w - 0 <? 86400) with false; [reflexivity|].
  symmetry. apply Z.ltb_ge. lia.
Qed.

Lemma assoc_other_key name k v before after :
  k <> name ->
  assoc name (before ++ (k, v) :: after) = assoc name (before ++ after).
Proof.
  intros Hne. induction before as [|[k0 v0] before IH]; simpl.
  - apply not_eq_sym in Hne. apply String.eqb_neq in Hne. now rewrite Hne.
  - destruct (String.eqb name k0); [reflexivity|exact IH].
Qed.

(** X2. A key the program does not know changes nothing, wherever it
    stands in the entry. *)
Lemma unknown_key_is_ignored k v before after key :
  k <> "timestamp" -> k <> "additions" -> k <> "deletions" ->
  forall w w',
    clock w = clock w' ->
    cache w !! key = Some (JObj (before ++ after)) ->
    cache w' !! key = Some (JObj (before ++ (k, v) :: after)) ->
    fst (cache_check key w') = fst (cache_check key w).
Proof.
  intros Hts Ha Hd w w' Hclock Hentry Hentry'.
  unfold cache_check. rewrite Hentry, Hentry', Hclock. simpl.
  now rewrite !assoc_other_key.
Qed.

Definition entry_without_timestamp : world :=
  {| clock := 1700000000;
     net := [];
     log := [];
     cache := {[ "repo_stats_o/r_v2"
                 := JObj [("additions", JInt 80); ("deletions", JInt 15)] ]} |}.

Lemma entry_without_timestamp_is_a_miss_witness :
  get_repository_stats "alice" {| full_name := "o/r" |}
    entry_without_timestamp
  = analyze "alice" "o/r" entry_without_timestamp.
Proof.
  apply (entry_without_timestamp_is_a_miss "alice" {| full_name := "o/r" |}
           entry_without_timestamp
           [("additions", JInt 80); ("deletions", JInt 15)]).
  - reflexivity.
  - reflexivity.
  - discriminate.
Defined.

Definition entry_with_note : world :=
  {| clock := 1700000000;
     net := [];
     log := [];
     cache := {[ "repo_stats_o/r_v2"
                 := JObj [("additions", JInt 80); ("note", JStr "manual");
                          ("deletions", JInt 15);
                          ("timestamp", JInt 1699990000)] ]} |}.

Lemma unknown_key_is_ignored_witness :
  fst (cache_check "repo_stats_o/r_v2" entry_with_note)
  = fst (cache_check "repo_stats_o/r_v2" (cached_world 1699990000)).
Proof.
  apply (unknown_key_is_ignored "note" (JStr "manual")
           [("additions", JInt 80)]
           [("deletions", JInt 15); ("timestamp", JInt 1699990000)]
           "repo_stats_o/r_v2");
    try discriminate; reflexivity.
Defined.

(** ** The cascade and the rest of the cache *)

(** The strategies read and write the network, the clock and the log
    only: what the call stores is the old cache with the one entry
    replaced. *)
Lemma analyze_updates_one_entry username repo_name w stats w' :
  cascade username repo_name w = (Ok stats, w') ->
  cache (snd (analyze username repo_name w))
  = <[cache_key repo_name := cache_entry stats (clock w')]> (cache w).
Proof.
  intros H. rewrite (analyze_stores username repo_name w stats w' H).
  pose proof (keeps_cascade same_cache username repo_name w) as Hsame.
  rewrite H in Hsame. unfold same_cache in Hsame. simpl in *.
  now rewrite Hsame.
Qed.

(** When commit-sampling raises, so does the call, and nothing is
    cached. *)
Lemma sampling_error_escapes username repo_name w e w' :
  cascade username repo_name w = (Raise e, w') ->
  analyze username repo_name w = (Raise e, w') /\ cache w' = cache w.
Proof.
  intros H. split.
  - unfold analyze, bind. now rewrite H.
  - pose proof (keeps_cascade same_cache username repo_name w) as Hsame.
    now rewrite H in Hsame.
Qed.

(** ** The paginated fetcher: termination and pages *)

Lemma present_some o r : present o = Some r -> o = Some r.
Proof.
  destruct o as [r0|]; simpl; [|discriminate].
  destruct (response_ok r0); [|discriminate]. now intros [= ->].
Qed.

Lemma request_loop_consumes script u params allow w r :
  fst (request_loop script u params allow w) = Some r ->
  (length (net (snd (request_loop script u params allow w)))
   < length script)%nat.
Proof.
  revert w. induction script as [|o rest IH]; intros w; simpl.
  - discriminate.
  - destruct o as [r0|]; [|discriminate].
    destruct (rate_limited r0).
    + destruct (reset_time_of (x_ratelimit_reset r0)); [|discriminate].
      intros H. specialize (IH _ H). lia.
    + destruct allow; [|destruct (status_code r0 =? 200)];
        try discriminate; intros _; simpl; lia.
Qed.

(** A call that returns a response has used up at least one outcome. *)
Lemma make_request_consumes u params allow w r w' :
  _make_request u params allow w = (Ok (Some r), w') ->
  (length (net w') < length (net w))%nat.
Proof.
  unfold _make_request.
  pose proof (request_loop_consumes (net w) u params allow w r) as H.
  destruct (request_loop (net w) u params allow w) as [o w1].
  intros [= -> ->]. now apply H.
Qed.

(** The iterations never run out when there are more of them than
    outcomes left. *)
Lemma paginate_enough_fuel u params fuel :
  forall page results w,
    (length (net w) < fuel)%nat ->
    fst (paginate fuel u params page results w) <> Ok None.
Proof.
  induction fuel as [|fuel IH]; intros page results w Hfuel; [lia|].
  cbn [paginate]. unfold bind at 1.
  destruct (_make_request u (page_params page params) false w)
    as [[o|e] w1] eqn:Hreq; [|discriminate].
  destruct (present o) as [r|] eqn:Hpresent; [|discriminate].
  apply present_some in Hpresent. subst o.
  apply make_request_consumes in Hreq.
  unfold bind, lift, ret.
  destruct (response_json r) as [data|]; [|discriminate].
  destruct (negb (truthy data)); [discriminate|].
  destruct (py_len data) as [n|]; [|discriminate].
  destruct (n =? 0); [discriminate|].
  destruct (py_iter data) as [items|]; [|discriminate].
  apply IH. lia.
Qed.

(** So [_get_paginated_data] is its loop: what the loop returns or
    raises, with as many iterations as it takes. *)
Lemma get_paginated_data_loop u params w fuel :
  (length (net w) < fuel)%nat ->
  forall items w',
    paginate fuel u params 1 [] w = (Ok (Some items), w') ->
    _get_paginated_data u params w = (Ok items, w').
Proof.
  intros Hfuel items w' Hrun. unfold _get_paginated_data, bind.
  assert (Hsame : forall f1 f2 page results v,
            paginate f1 u params page results v = (Ok (Some items), w') ->
            (length (net v) < f2)%nat ->
            paginate f2 u params page results v = (Ok (Some items), w')).
  { clear. induction f1 as [|f1 IH]; intros f2 page results v H Hf2;
      [discriminate|].
    destruct f2 as [|f2]; [lia|]. revert H. cbn [paginate].
    unfold bind, lift, ret.
    destruct (_make_request u (page_params page params) false v)
      as [[o|e] v1] eqn:Hreq; [|auto].
    destruct (present o) as [r|] eqn:Hpresent; [|auto].
    apply present_some in Hpresent. subst o.
    apply make_request_consumes in Hreq.
    destruct (response_json r) as [data|]; [|auto].
    destruct (negb (truthy data)); [auto|].
    destruct (py_len data) as [n|]; [|auto].
    destruct (n =? 0); [auto|].
    destruct (py_iter data) as [its|]; [|auto].
    intros H. apply (IH f2 _ _ _ H). lia. }
  rewrite (Hsame fuel (S (length (net w))) 1 [] w Hrun) by lia.
  reflexivity.
Qed.

(** The response [r] carries a page of [items], not empty. *)
Definition page_of (r : response) (items : list json) : Prop :=
  status_code r = 200 /\ body r = Some (JArr items) /\ items <> [].

(** What fetching [n] pages, from page [first] on, adds to the log. *)
Fixpoint page_requests (u : url) (params : query) (first : Z) (n : nat)
  : list event :=
  match n with
  | O => []
  | S n' =>
      EGet u (page_params first params) :: ESleep RATE_LIMIT_DELAY
      :: page_requests u params (first + 1) n'
  end.

Lemma page_requests_last u params n :
  forall first,
    page_requests u params first (S n)
    = page_requests u params first n
      ++ [EGet u (page_params (first + Z.of_nat n) params);
          ESleep RATE_LIMIT_DELAY].
Proof.
  induction n as [|n IH]; intros first.
  - simpl. now rewrite Z.add_0_r.
  - change (page_requests u params first (S (S n)))
      with (EGet u (page_params first params) :: ESleep RATE_LIMIT_DELAY
            :: page_requests u params (first + 1) (S n)).
    rewrite IH. simpl.
    replace (first + 1 + Z.of_nat n) with (first + Z.of_nat (S n)) by lia.
    reflexivity.
Qed.

Lemma paginate_page_step u params fuel page results w r rest items :
  net w = Resp r :: rest ->
  page_of r items ->
  paginate (S fuel) u params page results w
  = paginate fuel u params (page + 1) (results ++ items)
      (sleep RATE_LIMIT_DELAY (sent u (page_params page params) rest w)).
Proof.
  intros Hnet (Hst & Hbody & Hitems). cbn [paginate]. unfold bind at 1.
  rewrite (make_request_returned _ _ _ _ r rest);
    [|assumption|apply other_status_not_rate_limited; lia|now right].
  rewrite present_below_400 by lia.
  unfold bind at 1. unfold lift at 1. unfold response_json. rewrite Hbody.
  destruct items as [|item items]; [contradiction|].
  reflexivity.
Qed.

Lemma paginate_pages u params responses pages :
  Forall2 page_of responses pages ->
  forall fuel page results w tail,
    net w = map Resp responses ++ tail ->
    exists w1,
      paginate (length responses + fuel) u params page results w
      = paginate fuel u params (page + Z.of_nat (length responses))
          (results ++ concat pages) w1
      /\ net w1 = tail
      /\ log w1 = log w ++ page_requests u params page (length responses)
      /\ clock w1
         = clock w + Z.of_nat (length responses) * RATE_LIMIT_DELAY
      /\ cache w1 = cache w.
Proof.
  induction 1 as [|r items responses pages Hpage _ IH];
    intros fuel page results w tail Hnet.
  - exists w. simpl in *. rewrite !app_nil_r, Z.add_0_r.
    repeat split; trivial. lia.
  - simpl in Hnet. cbn [length Nat.add].
    rewrite (paginate_page_step u params _ page results w r
               (map Resp responses ++ tail) items Hnet Hpage).
    destruct (IH fuel (page + 1) (results ++ items)
                (sleep RATE_LIMIT_DELAY
                   (sent u (page_params page params)
                      (map Resp responses ++ tail) w))
                tail eq_refl)
      as (w1 & Hrun & Hnet1 & Hlog & Hclock & Hcache).
    exists w1. rewrite Hrun. repeat split; trivial.
    + f_equal; [lia|]. simpl. now rewrite app_assoc.
    + rewrite Hlog. simpl. now rewrite <- !app_assoc.
    + rewrite Hclock. simpl clock. unfold RATE_LIMIT_DELAY. lia.
Qed.

(** X3. Pages are fetched from page 1 with [per_page=100], each followed
    by the fixed delay, up to the first empty page; the result is the
    pages' items in order. *)
Theorem paginated_data_concatenates_pages
    u params w responses pages last rest :
  net w = map Resp responses ++ Resp last :: rest ->
  Forall2 page_of responses pages ->
  status_code last = 200 ->
  body last = Some (JArr []) ->
  exists w',
    _get_paginated_data u params w = (Ok (concat pages), w')
    /\ net w' = rest
    /\ log w'
       = log w ++ page_requests u params 1 (S (length responses))
    /\ cache w' = cache w.
Proof.
  intros Hnet Hpages Hst Hbody.
  destruct (paginate_pages u params responses pages Hpages
              (S (S (length rest))) 1 [] w (Resp last :: rest) Hnet)
    as (w1 & Hrun & Hnet1 & Hlog & Hclock & Hcache).
  exists (sleep RATE_LIMIT_DELAY
            (sent u (page_params (1 + Z.of_nat (length responses)) params)
               rest w1)).
  split; [|split; [|split]]; trivial.
  - apply get_paginated_data_loop
      with (fuel := (length responses + S (S (length rest)))%nat).
    + rewrite Hnet, length_app, length_map. simpl. lia.
    + rewrite Hrun. cbn [paginate]. unfold bind at 1.
      rewrite (make_request_returned _ _ _ _ last rest);
        [|assumption|apply other_status_not_rate_limited; lia|now right].
      rewrite present_below_400 by lia.
      unfold bind, lift, response_json. rewrite Hbody. reflexivity.
  - rewrite page_requests_last. simpl. rewrite Hlog, <- !app_assoc.
    reflexivity.
Qed.

(** The next request yields absent: the network fails (or has nothing
    left to say), or the response is neither 200 nor a rate limit. *)
Definition fails_first (tail rest : list outcome) : Prop :=
  (tail = [] /\ rest = [])
  \/ tail = NetErr :: rest
  \/ exists r,
       tail = Resp r :: rest /\ rate_limited r = false
       /\ status_code r <> 200.

Lemma make_request_fails u params w rest :
  fails_first (net w) rest ->
  _make_request u params false w = (Ok None, sent u params rest w).
Proof.
  intros [[Hnet ->]|[Hnet|(r & Hnet & Hrl & Hst)]].
  - unfold _make_request. now rewrite Hnet.
  - now apply make_request_failed.
  - now apply make_request_refused with (r := r).
Qed.

(** X4. A page request that yields absent ends the pagination without an
    error: the pages fetched before it are returned, and the failed
    request is not followed by the fixed delay. *)
Theorem paginated_data_truncated_by_failure
    u params w responses pages tail rest :
  net w = map Resp responses ++ tail ->
  Forall2 page_of responses pages ->
  fails_first tail rest ->
  exists w',
    _get_paginated_data u params w = (Ok (concat pages), w')
    /\ net w' = rest
    /\ log w'
       = log w ++ page_requests u params 1 (length responses)
         ++ [EGet u
               (page_params (1 + Z.of_nat (length responses)) params)]
    /\ cache w' = cache w.
Proof.
  intros Hnet Hpages Hfail.
  destruct (paginate_pages u params responses pages Hpages
              (S (length tail)) 1 [] w tail Hnet)
    as (w1 & Hrun & Hnet1 & Hlog & Hclock & Hcache).
  exists (sent u (page_params (1 + Z.of_nat (length responses)) params)
            rest w1).
  split; [|split; [|split]]; trivial.
  - apply get_paginated_data_loop
      with (fuel := (length responses + S (length tail))%nat).
    + rewrite Hnet, length_app, length_map. lia.
    + rewrite Hrun. cbn [paginate]. unfold bind at 1.
      rewrite (make_request_fails _ _ w1 rest) by now rewrite Hnet1.
      reflexivity.
  - simpl. now rewrite Hlog, <- !app_assoc.
Qed.

Definition repo_record (name : string) (fork : bool) (size : Z) : json :=
  JObj [("full_name", JStr name); ("fork", JBool fork);
        ("size", JInt size)].

(** Two pages of repositories, an empty third page, and whatever
    follows. *)
Definition three_pages (rest : list outcome) : world :=
  world_at 1000
    (map Resp
       [ok_response (JArr [repo_record "o/a" false 10;
                           repo_record "o/b" true 20]);
        ok_response (JArr [repo_record "o/c" false 0])]
     ++ Resp (ok_response (JArr [])) :: rest).

Lemma paginated_data_concatenates_pages_witness :
  exists w',
    _get_paginated_data (Commits "o/r") (Some [("type", JStr "all")])
      (three_pages [NetErr])
    = (Ok [repo_record "o/a" false 10; repo_record "o/b" true 20;
           repo_record "o/c" false 0], w')
    /\ net w' = [NetErr]
    /\ log w'
       = [EGet (Commits "o/r")
            (Some [("page", JInt 1); ("per_page", JInt 100);
                   ("type", JStr "all")]);
          ESleep 1;
          EGet (Commits "o/r")
            (Some [("page", JInt 2); ("per_page", JInt 100);
                   ("type", JStr "all")]);
          ESleep 1;
          EGet (Commits "o/r")
            (Some [("page", JInt 3); ("per_page", JInt 100);
                   ("type", JStr "all")]);
          ESleep 1]
    /\ cache w' = ∅.
Proof.
  apply (paginated_data_concatenates_pages (Commits "o/r")
           (Some [("type", JStr "all")]) (three_pages [NetErr])
           [ok_response (JArr [repo_record "o/a" false 10;
                               repo_record "o/b" true 20]);
            ok_response (JArr [repo_record "o/c" false 0])]
           [[repo_record "o/a" false 10; repo_record "o/b" true 20];
            [repo_record "o/c" false 0]]
           (ok_response (JArr [])) [NetErr]);
    try reflexivity.
  repeat constructor; discriminate.
Defined.

Lemma paginated_data_truncated_by_failure_witness :
  exists w',
    _get_paginated_data (Commits "o/r") None
      (world_at 1000
         (map Resp [ok_response (JArr [repo_record "o/a" false 10])]
          ++ [Resp not_found]))
    = (Ok [repo_record "o/a" false 10], w')
    /\ net w' = []
    /\ log w'
       = [EGet (Commits "o/r")
            (Some [("page", JInt 1); ("per_page", JInt 100)]);
          ESleep 1;
          EGet (Commits "o/r")
            (Some [("page", JInt 2); ("per_page", JInt 100)])]
    /\ cache w' = ∅.
Proof.
  apply (paginated_data_truncated_by_failure (Commits "o/r") None
           (world_at 1000
              (map Resp [ok_response (JArr [repo_record "o/a" false 10])]
               ++ [Resp not_found]))
           [ok_response (JArr [repo_record "o/a" false 10])]
           [[repo_record "o/a" false 10]]
           [Resp not_found] []).
  - reflexivity.
  - repeat constructor; discriminate.
  - right. right. exists not_found. repeat split. discriminate.
Defined.

(** ** The enumerator's removal of duplicates *)

(** [repo['full_name']], when it is there and a string. *)
Definition full_name_of (repo : json) : option string :=
  match py_getitem repo "full_name" with
  | Ok (JStr name) => Some name
  | _ => None
  end.

Definition names_of (repos : list json) : list string :=
  omap full_name_of repos.

Lemma seen_string name seen :
  existsb (py_eq (JStr name)) (map JStr seen) = true <-> name ∈ seen.
Proof.
  induction seen as [|s seen IH]; simpl.
  - split; [discriminate|]. intros H. inversion H.
  - rewrite orb_true_iff, IH, elem_of_cons, String.eqb_eq. tauto.
Qed.

Lemma names_of_cons repo name repos :
  full_name_of repo = Some name ->
  names_of (repo :: repos) = name :: names_of repos.
Proof. intros H. unfold names_of. simpl. now rewrite H. Qed.

(** The loop over a prefix of records that all have a name: what it adds
    to [unique_repos] is a subsequence of the prefix with the names not
    seen before, once each, taken at their first occurrence. *)
Lemma unique_loop_prefix pre :
  Forall (fun repo => is_Some (full_name_of repo)) pre ->
  forall others seen unique,
    exists out,
      unique_loop (pre ++ others) (map JStr seen) unique
      = unique_loop others (map JStr (rev (names_of out) ++ seen))
          (unique ++ out)
      /\ sublist out pre
      /\ NoDup (names_of out)
      /\ (forall name, name ∈ names_of out -> name ∉ seen)
      /\ (forall name,
            name ∈ names_of pre -> name ∈ seen \/ name ∈ names_of out)
      /\ (forall before repo after name,
            pre = before ++ repo :: after ->
            full_name_of repo = Some name ->
            name ∉ seen ->
            name ∉ names_of before ->
            repo ∈ out).
Proof.
  induction 1 as [|repo pre [name Hname] _ IH]; intros others seen unique.
  - exists []. simpl. rewrite app_nil_r. split_and!.
    + reflexivity.
    + constructor.
    + constructor.
    + intros name H. inversion H.
    + intros name H. inversion H.
    + intros [|? ?] ? ? ? H; discriminate H.
  - assert (Hget : py_getitem repo "full_name" = Ok (JStr name)).
    { unfold full_name_of in Hname.
      destruct (py_getitem repo "full_name") as [[]|]; congruence. }
    cbn [app unique_loop]. rewrite Hget. cbn [rbind].
    unfold not_in_set. cbn [hashable rbind].
    destruct (existsb (py_eq (JStr name)) (map JStr seen)) eqn:Hseen;
      cbn [negb].
    + apply seen_string in Hseen.
      destruct (IH others seen unique)
        as (out & Hrun & Hsub & Hnodup & Hfresh & Hall & Hfirst).
      exists out. split; [exact Hrun|]. split_and!; trivial.
      * now apply sublist_cons.
      * intros n. rewrite (names_of_cons repo name pre Hname).
        rewrite elem_of_cons. intros [->|Hn]; [now left|]. now apply Hall.
      * intros before r after n Hsplit Hr Hn Hbefore.
        destruct before as [|b before]; simpl in Hsplit.
        -- injection Hsplit as <- <-. congruence.
        -- injection Hsplit as <- ->.
           apply (Hfirst before r after n eq_refl Hr Hn).
           intros Hin. apply Hbefore.
           rewrite (names_of_cons repo name before Hname). now right.
    + assert (Hnew : name ∉ seen).
      { intros Hin. apply seen_string in Hin. congruence. }
      destruct (IH others (name :: seen) (unique ++ [repo]))
        as (out & Hrun & Hsub & Hnodup & Hfresh & Hall & Hfirst).
      exists (repo :: out). change (JStr name :: map JStr seen)
        with (map JStr (name :: seen)). rewrite Hrun.
      rewrite (names_of_cons repo name out Hname). cbn [rev].
      rewrite <- !app_assoc. split; [reflexivity|]. split_and!.
      * now apply sublist_skip.
      * constructor; [|exact Hnodup].
        intros Hin. apply (Hfresh name Hin). now left.
      * intros n. rewrite elem_of_cons. intros [->|Hn]; [exact Hnew|].
        intros Hin. apply (Hfresh n Hn). now right.
      * intros n. rewrite (names_of_cons repo name pre Hname).
        rewrite !elem_of_cons. intros [->|Hn]; [right; now left|].
        destruct (Hall n Hn) as [Hs|Ho]; [|right; now right].
        apply elem_of_cons in Hs as [->|Hs]; [right; now left|now left].
      * intros before r after n Hsplit Hr Hn Hbefore.
        destruct before as [|b before]; simpl in Hsplit.
        -- injection Hsplit as <- <-. now left.
        -- injection Hsplit as <- ->. right.
           apply (Hfirst before r after n eq_refl Hr).
           ++ intros Hin. apply elem_of_cons in Hin as [->|Hin];
                [|contradiction].
              apply Hbefore.
              rewrite (names_of_cons repo name before Hname). now left.
           ++ intros Hin. apply Hbefore.
              rewrite (names_of_cons repo name before Hname). now right.
Qed.

(** X5. On records that all have a string [full_name], the removal of
    duplicates returns a subsequence of its input in which every name of
    the input occurs exactly once, carried by the first record that has
    it. *)
Theorem unique_repos_keep_first_occurrences repos :
  Forall (fun repo => is_Some (full_name_of repo)) repos ->
  exists out,
    unique_loop repos [] [] = Ok out
    /\ sublist out repos
    /\ NoDup (names_of out)
    /\ (forall name, name ∈ names_of repos -> name ∈ names_of out)
    /\ (forall before repo after name,
          repos = before ++ repo :: after ->
          full_name_of repo = Some name ->
          name ∉ names_of before ->
          repo ∈ out).
Proof.
  intros Hnamed.
  destruct (unique_loop_prefix repos Hnamed [] [] [])
    as (out & Hrun & Hsub & Hnodup & _ & Hall & Hfirst).
  exists out. rewrite app_nil_r in Hrun. split_and!; trivial.
  - intros name Hin. destruct (Hall name Hin) as [H|H]; [inversion H|exact H].
  - intros before repo after name Hsplit Hname Hbefore.
    apply (Hfirst before repo after name Hsplit Hname); [|exact Hbefore].
    intros H. inversion H.
Qed.

Lemma unique_repos_keep_first_occurrences_witness :
  exists out,
    unique_loop
      [repo_record "o/a" false 10; repo_record "o/b" false 20;
       repo_record "o/a" true 30]
      [] []
    = Ok out
    /\ sublist out
         [repo_record "o/a" false 10; repo_record "o/b" false 20;
          repo_record "o/a" true 30]
    /\ NoDup (names_of out)
    /\ (forall name,
          name ∈ names_of
                   [repo_record "o/a" false 10; repo_record "o/b" false 20;
                    repo_record "o/a" true 30] ->
          name ∈ names_of out)
    /\ (forall before repo after name,
          [repo_record "o/a" false 10; repo_record "o/b" false 20;
           repo_record "o/a" true 30]
          = before ++ repo :: after ->
          full_name_of repo = Some name ->
          name ∉ names_of before ->
          repo ∈ out).
Proof.
  apply (unique_repos_keep_first_occurrences
           [repo_record "o/a" false 10; repo_record "o/b" false 20;
            repo_record "o/a" true 30]).
  repeat constructor; eexists; reflexivity.
Defined.

(** X6. A record without [full_name] makes the removal of duplicates,
    and with it the enumeration, raise [KeyError]: no list is returned,
    not even the records before it. *)
Theorem unique_repos_missing_name_raises before fields after :
  Forall (fun repo => is_Some (full_name_of repo)) before ->
  assoc "full_name" fields = None ->
  unique_loop (before ++ JObj fields :: after) [] [] = Raise KeyError.
Proof.
  intros Hnamed Hmissing.
  destruct (unique_loop_prefix before Hnamed (JObj fields :: after) [] [])
    as (out & Hrun & _).
  cbn [map] in Hrun. rewrite Hrun.
  cbn [unique_loop py_getitem]. now rewrite Hmissing.
Qed.

Lemma unique_repos_missing_name_raises_witness :
  unique_loop
    ([repo_record "o/a" false 10]
     ++ JObj [("name", JStr "b"); ("size", JInt 3)]
     :: [repo_record "o/c" false 5])
    [] []
  = Raise KeyError.
Proof.
  apply (unique_repos_missing_name_raises [repo_record "o/a" false 10]
           [("name", JStr "b"); ("size", JInt 3)]
           [repo_record "o/c" false 5]).
  - repeat constructor. eexists. reflexivity.
  - reflexivity.
Defined.

(** ** The enumeration as a whole *)

(** What a paginated endpoint answers in full: pages that are not empty,
    then an empty page. *)
Record listing : Type := {
  listing_responses : list response;
  listing_pages : list (list json);
  listing_end : response
}.

Definition listing_ok (l : listing) : Prop :=
  Forall2 page_of (listing_responses l) (listing_pages l)
  /\ status_code (listing_end l) = 200
  /\ body (listing_end l) = Some (JArr []).

Definition script_of (l : listing) : list outcome :=
  map Resp (listing_responses l) ++ [Resp (listing_end l)].

Definition items_of (l : listing) : list json := concat (listing_pages l).

Lemma get_paginated_listing u params w l rest :
  listing_ok l ->
  net w = script_of l ++ rest ->
  exists w',
    _get_paginated_data u params w = (Ok (items_of l), w')
    /\ net w' = rest
    /\ cache w' = cache w.
Proof.
  intros (Hpages & Hst & Hbody) Hnet. unfold script_of in Hnet.
  rewrite <- app_assoc in Hnet. simpl in Hnet.
  destruct (paginate_pages u params _ _ Hpages
              (S (S (length rest))) 1 [] w _ Hnet)
    as (w1 & Hrun & Hnet1 & _ & _ & Hcache).
  eexists. split; [|split].
  - apply get_paginated_data_loop
      with (fuel := (length (listing_responses l)
                     + S (S (length rest)))%nat).
    + rewrite Hnet, length_app, length_map. simpl. lia.
    + rewrite Hrun. cbn [paginate]. unfold bind at 1.
      rewrite (make_request_returned _ _ _ _ (listing_end l) rest);
        [|assumption|apply other_status_not_rate_limited; lia|now right].
      rewrite present_below_400 by lia.
      unfold bind, lift, response_json. rewrite Hbody. reflexivity.
  - reflexivity.
  - exact Hcache.
Qed.

(** The organisation [org] has a login and [l] is the full listing of
    its repositories. *)
Definition org_listing (org : json) (l : listing) : Prop :=
  (exists login, py_getitem org "login" = Ok login) /\ listing_ok l.

Lemma org_loop_listings org_repos_url orgs listings :
  Forall2 org_listing orgs listings ->
  forall repos w rest,
    net w = concat (map script_of listings) ++ rest ->
    exists w',
      org_loop org_repos_url orgs repos w
      = (Ok (repos ++ concat (map items_of listings)), w')
      /\ net w' = rest
      /\ cache w' = cache w.
Proof.
  induction 1 as [|org l orgs listings [[login Hlogin] Hok] _ IH];
    intros repos w rest Hnet.
  - exists w. simpl in *. now rewrite app_nil_r.
  - simpl in Hnet. rewrite <- app_assoc in Hnet.
    cbn [org_loop]. unfold bind at 1. unfold lift at 1. rewrite Hlogin.
    unfold bind at 1.
    destruct (get_paginated_listing (org_repos_url login)
                (Some [("type", JStr "all")]) w l _ Hok Hnet)
      as (w1 & -> & Hnet1 & Hcache1).
    destruct (IH (repos ++ items_of l) w1 rest Hnet1)
      as (w' & -> & Hnet' & Hcache').
    exists w'. simpl. rewrite <- app_assoc. split_and!; trivial.
    congruence.
Qed.

(** X7. With every listing answered in full, the enumeration is the
    personal listing followed by the listing of each organisation, in the
    order of the organisations response, with duplicates removed from
    that sequence. *)
Theorem get_all_repositories_lists_personal_then_orgs
    user_repos_url user_orgs_url org_repos_url
    w personal orgs_response orgs listings rest :
  listing_ok personal ->
  status_code orgs_response = 200 ->
  body orgs_response = Some (JArr orgs) ->
  Forall2 org_listing orgs listings ->
  net w
  = script_of personal
    ++ Resp orgs_response :: concat (map script_of listings) ++ rest ->
  exists w',
    get_all_repositories user_repos_url user_orgs_url org_repos_url w
    = (unique_loop (items_of personal ++ concat (map items_of listings))
         [] [],
       w')
    /\ net w' = rest
    /\ cache w' = cache w.
Proof.
  intros Hpersonal Hst Hbody Horgs Hnet.
  unfold get_all_repositories. unfold bind at 1.
  destruct (get_paginated_listing user_repos_url
              (Some [("type", JStr "all"); ("sort", JStr "updated")])
              w personal _ Hpersonal Hnet)
    as (w1 & -> & Hnet1 & Hcache1).
  unfold bind at 1.
  rewrite (make_request_returned _ _ _ _ orgs_response
             (concat (map script_of listings) ++ rest));
    [|assumption|apply other_status_not_rate_limited; lia|now right].
  rewrite present_below_400 by lia.
  unfold bind at 1. unfold bind at 1. unfold lift at 1.
  unfold response_json. rewrite Hbody.
  unfold bind at 1. unfold lift at 1. cbn [py_iter].
  destruct (org_loop_listings org_repos_url orgs listings Horgs
              (items_of personal)
              (sleep RATE_LIMIT_DELAY
                 (sent user_orgs_url None
                    (concat (map script_of listings) ++ rest) w1))
              rest eq_refl)
    as (w' & -> & Hnet' & Hcache').
  exists w'. unfold lift. split_and!; trivial.
  simpl in Hcache'. congruence.
Qed.

(** X8. When the organisations request yields absent, the enumeration
    is the personal listing alone, with duplicates removed: the failure
    is not reported. *)
Theorem get_all_repositories_without_orgs
    user_repos_url user_orgs_url org_repos_url w personal tail rest :
  listing_ok personal ->
  net w = script_of personal ++ tail ->
  fails_first tail rest ->
  exists w',
    get_all_repositories user_repos_url user_orgs_url org_repos_url w
    = (unique_loop (items_of personal) [] [], w')
    /\ net w' = rest
    /\ cache w' = cache w.
Proof.
  intros Hpersonal Hnet Hfail.
  unfold get_all_repositories. unfold bind at 1.
  destruct (get_paginated_listing user_repos_url
              (Some [("type", JStr "all"); ("sort", JStr "updated")])
              w personal _ Hpersonal Hnet)
    as (w1 & -> & Hnet1 & Hcache1).
  unfold bind at 1.
  rewrite (make_request_fails _ _ w1 rest) by now rewrite Hnet1.
  eexists. split; [reflexivity|]. split; [reflexivity|exact Hcache1].
Qed.

(** ** Cache keys and what a lookup leaves alone *)

Lemma string_length_app a b :
  String.length (a +:+ b) = (String.length a + String.length b)%nat.
Proof. induction a as [|c a IH]; simpl; [reflexivity|now rewrite IH]. Qed.

Lemma string_app_inv_tail a b s : a +:+ s = b +:+ s -> a = b.
Proof.
  revert b. induction a as [|c a IH]; intros [|c' b] H; simpl in H.
  - reflexivity.
  - apply (f_equal String.length) in H.
    rewrite !string_length_app in H. simpl in H. lia.
  - apply (f_equal String.length) in H.
    rewrite !string_length_app in H. simpl in H. lia.
  - injection H as -> H. f_equal. now apply IH.
Qed.

Lemma cache_key_inj a b : cache_key a = cache_key b -> a = b.
Proof.
  unfold cache_key. intros H. apply String.app_inj in H.
  now apply string_app_inv_tail in H.
Qed.

(** Whatever a call does, the cache afterwards is the cache before, or
    the cache before with the repository's own entry replaced. *)
Lemma get_repository_stats_cache username r w :
  cache (snd (get_repository_stats username r w)) = cache w
  \/ exists stats now,
       cache (snd (get_repository_stats username r w))
       = <[cache_key (full_name r) := cache_entry stats now]> (cache w).
Proof.
  destruct (get_repository_stats username r w) as [result w'] eqn:Hrun.
  simpl. revert Hrun. unfold get_repository_stats, bind.
  pose proof (cache_check_world (cache_key (full_name r)) w) as Hw.
  destruct (cache_check (cache_key (full_name r)) w) as [[[hit|]|e] w0];
    simpl in Hw; subst w0; try (intros [= <- <-]; now left).
  pose proof (keeps_cascade same_cache username (full_name r) w) as Hsame.
  unfold analyze, bind.
  destruct (cascade username (full_name r) w) as [[stats|e] w1];
    unfold same_cache in Hsame; simpl in Hsame; intros [= <- <-];
    [|now left].
  right. exists stats, (clock w1). simpl. now rewrite Hsame.
Qed.

(** X9. Cache keys of different repositories differ, and a call for one
    repository, whether it hits, misses or raises, leaves the entry of
    every other repository as it was. *)
Theorem get_repository_stats_keeps_other_entries username r other w :
  full_name other <> full_name r ->
  cache_key (full_name other) <> cache_key (full_name r)
  /\ cache (snd (get_repository_stats username r w))
     !! cache_key (full_name other)
     = cache w !! cache_key (full_name other).
Proof.
  intros Hne.
  assert (Hkey : cache_key (full_name other) <> cache_key (full_name r)).
  { intros H. apply Hne. now apply cache_key_inj. }
  split; [exact Hkey|].
  destruct (get_repository_stats_cache username r w)
    as [->|(stats & now & ->)]; [reflexivity|].
  apply lookup_insert_ne. congruence.
Qed.

Lemma get_repository_stats_keeps_other_entries_witness :
  cache_key "o/a" <> cache_key "o/r"
  /\ cache (snd (get_repository_stats "alice" {| full_name := "o/r" |}
                   (cached_world 1600000000)))
     !! cache_key "o/a"
     = cache (cached_world 1600000000) !! cache_key "o/a".
Proof.
  apply (get_repository_stats_keeps_other_entries "alice"
           {| full_name := "o/r" |} {| full_name := "o/a" |}
           (cached_world 1600000000)).
  discriminate.
Defined.

(** X10. What the cascade has computed is served from the cache from
    then on: a second call for the repository within 86400 seconds of
    the write returns the same pair and touches nothing, the network
    included. *)
Theorem computed_stats_are_reused username r w result w1 :
  cache_check (cache_key (full_name r)) w = (Ok None, w) ->
  get_repository_stats username r w = (Ok result, w1) ->
  forall w2,
    cache w2 !! cache_key (full_name r)
    = cache w1 !! cache_key (full_name r) ->
    clock w2 - clock w1 < 86400 ->
    get_repository_stats username r w2 = (Ok result, w2).
Proof.
  intros Hmiss Hrun w2 Hentry Hfresh.
  rewrite (get_repository_stats_miss username r w Hmiss) in Hrun.
  unfold analyze, bind in Hrun.
  destruct (cascade username (full_name r) w) as [[stats|e] w0];
    [|discriminate].
  injection Hrun as <- <-. simpl in Hentry, Hfresh.
  rewrite lookup_insert_eq in Hentry.
  unfold get_repository_stats, bind, cache_check. rewrite Hentry.
  simpl. apply Z.ltb_lt in Hfresh. now rewrite Hfresh.
Qed.

Lemma computed_stats_are_reused_witness :
  get_repository_stats "alice" {| full_name := "o/r" |}
    {| clock := 1700086400; net := []; log := [];
       cache := {[ "repo_stats_o/r_v2"
                   := JObj [("additions", JInt 80); ("deletions", JInt 15);
                            ("timestamp", JInt 1700000001)] ]} |}
  = (Ok (JInt 80, JInt 15),
     {| clock := 1700086400; net := []; log := [];
        cache := {[ "repo_stats_o/r_v2"
                    := JObj [("additions", JInt 80); ("deletions", JInt 15);
                             ("timestamp", JInt 1700000001)] ]} |}).
Proof.
  apply (computed_stats_are_reused "alice" {| full_name := "o/r" |}
           (world_at 1700000000
              [Resp (ok_response
                       (JArr [contributor "alice"
                                [week 50 10; week 30 5]]))])
           (JInt 80, JInt 15)
           (stored "repo_stats_o/r_v2" (80, 15)
              (sleep RATE_LIMIT_DELAY
                 (sent (StatsContributors "o/r") None []
                    (world_at 1700000000
                       [Resp (ok_response
                                (JArr [contributor "alice"
                                         [week 50 10; week 30 5]]))]))))
           eq_refl eq_refl);
    reflexivity.
Defined.

(** ** The aggregation loop *)

Definition metadata_get (r : repository) (k : string) (default : json)
  : json :=
  match assoc k (metadata r) with
  | Some v => v
  | None => default
  end.

(** The repository is a fork, or its size is 0. *)
Definition skipped (r : repository) : bool :=
  truthy (metadata_get r "fork" (JBool false))
  || py_is_zero (metadata_get r "size" (JInt 0)).

Lemma py_get_metadata r k default :
  py_get (JObj (metadata r)) k default = Ok (metadata_get r k default).
Proof.
  unfold py_get, metadata_get. now destruct (assoc k (metadata r)).
Qed.

Lemma process_repo_skipped username r t w :
  skipped r = true -> process_repo username r t w = (Ok t, w).
Proof.
  unfold skipped, process_repo. intros H.
  unfold bind at 1. unfold lift at 1. rewrite py_get_metadata.
  destruct (truthy (metadata_get r "fork" (JBool false))); [reflexivity|].
  unfold bind at 1. unfold lift at 1. rewrite py_get_metadata.
  simpl in H. now rewrite H.
Qed.

(** X11. Forks and repositories of size 0 are never passed to
    [get_repository_stats]: the loop does on a list what it does on the
    list without them. *)
Theorem analyze_loop_skips_forks_and_empty username repos t w :
  analyze_loop username repos t w
  = analyze_loop username (filter (fun r => negb (skipped r)) repos) t w.
Proof.
  revert t w. induction repos as [|r repos IH]; intros t w; [reflexivity|].
  cbn [filter list_filter]. unfold filter in IH.
  destruct (skipped r) eqn:Hskip.
  - rewrite decide_False by (simpl; tauto).
    cbn [analyze_loop]. unfold bind, try_except.
    rewrite (process_repo_skipped username r t w Hskip). apply IH.
  - rewrite decide_True by (simpl; tauto).
    cbn [analyze_loop]. unfold bind.
    destruct (try_except (process_repo username r t) t w) as [[t'|e] w'];
      [apply IH|reflexivity].
Qed.

Definition int_of (v : json) : Z := default 0 (as_int v).

(** An entry of [repos_with_contributions]: both counts are integers
    and one of them is positive. *)
Definition contribution (entry : string * json * json) : Prop :=
  exists a d,
    as_int (snd (fst entry)) = Some a
    /\ as_int (snd entry) = Some d
    /\ (0 < a \/ 0 < d).

(** The tally [t] with one more entry. *)
Definition counted (t : tally) (entry : string * json * json) : tally :=
  {| total_additions := total_additions t + int_of (snd (fst entry));
     total_deletions := total_deletions t + int_of (snd entry);
     processed_repos := processed_repos t + 1;
     repos_with_contributions := repos_with_contributions t ++ [entry] |}.

(** One iteration on a repository that is not skipped: the world is the
    one [get_repository_stats] leaves, and the tally is unchanged or has
    one more entry, for this repository. *)
Lemma process_repo_outcome username r t w :
  skipped r = false ->
  exists t',
    try_except (process_repo username r t) t w
    = (Ok t', snd (get_repository_stats username (ref r) w))
    /\ (t' = t
        \/ exists a d,
             contribution (full_name (ref r), a, d)
             /\ t' = counted t (full_name (ref r), a, d)).
Proof.
  unfold skipped. intros Hskip. apply orb_false_iff in Hskip as [Hfork Hsize].
  unfold try_except, process_repo.
  unfold bind at 1. unfold lift at 1. rewrite py_get_metadata, Hfork.
  unfold bind at 1. unfold lift at 1. rewrite py_get_metadata, Hsize.
  unfold bind at 1.
  destruct (get_repository_stats username (ref r) w)
    as [[[additions deletions]|e] w1]; [|exists t; auto].
  cbn [fst snd]. unfold bind, lift, ret, py_positive, py_format_thousands,
    py_add, counted, contribution, int_of.
  destruct additions as [|[]|a|?|?|?], deletions as [|[]|d|?|?|?]; simpl;
    try (exists t; split; [reflexivity|now left]);
    repeat match goal with
           | |- context [0 <? ?z] => destruct (0 <? z) eqn:?
           end;
    try (exists t; split; [reflexivity|now left]);
    (eexists; split; [reflexivity|]; right;
     match goal with
     | |- context [[(full_name (ref r), ?x, ?y)]] => exists x, y
     end;
     split; [|reflexivity]; eexists _, _;
     split; [reflexivity|]; split; [reflexivity|];
     repeat match goal with
            | H : (0 <? _) = true |- _ => apply Z.ltb_lt in H
            end;
     simpl; lia).
Qed.

(** X12. The loop never raises, and its tally is consistent: the entries
    it adds are contributions of repositories of the list that are not
    skipped, in the order of the list, and the two totals and the count
    grow by the entries' additions, deletions and number. *)
Theorem analyze_loop_tally username repos t w :
  exists added t' w',
    analyze_loop username repos t w = (Ok t', w')
    /\ repos_with_contributions t' = repos_with_contributions t ++ added
    /\ Forall contribution added
    /\ sublist (map (fun entry => fst (fst entry)) added)
         (map (fun r => full_name (ref r))
            (filter (fun r => negb (skipped r)) repos))
    /\ total_additions t'
       = total_additions t
         + zsum (map (fun entry => int_of (snd (fst entry))) added)
    /\ total_deletions t'
       = total_deletions t
         + zsum (map (fun entry => int_of (snd entry)) added)
    /\ processed_repos t' = processed_repos t + Z.of_nat (length added).
Proof.
  revert t w. induction repos as [|r repos IH]; intros t w.
  - exists [], t, w. simpl. rewrite app_nil_r.
    split_and!; trivial; try lia; constructor.
  - cbn [analyze_loop filter list_filter]. unfold filter in IH.
    unfold bind at 1. destruct (skipped r) eqn:Hr.
    + rewrite decide_False by (simpl; tauto). unfold try_except.
      rewrite (process_repo_skipped username r t w Hr). apply IH.
    + rewrite decide_True by (simpl; tauto).
      destruct (process_repo_outcome username r t w Hr) as (t1 & -> & Ht1).
      destruct (IH t1 (snd (get_repository_stats username (ref r) w)))
        as (added & t' & w' & -> & Hlist & Hall & Hsub & Ha & Hd & Hn).
      destruct Ht1 as [->|(a & d & Hentry & ->)].
      * exists added, t', w'. split_and!; trivial. now apply sublist_cons.
      * exists ((full_name (ref r), a, d) :: added), t', w'.
        simpl in *. rewrite <- app_assoc in Hlist.
        split_and!; trivial; try lia.
        -- now constructor.
        -- now apply sublist_skip.
Qed.

(** X13. An exception of [get_repository_stats] is caught in the
    iteration that raised it: the loop goes on with the next repository,
    with the tally it had and in the world the failed call left. *)
Theorem analyze_loop_survives_errors username r rest t w e w1 :
  skipped r = false ->
  get_repository_stats username (ref r) w = (Raise e, w1) ->
  analyze_loop username (r :: rest) t w = analyze_loop username rest t w1.
Proof.
  intros Hskip Hraise.
  destruct (process_repo_outcome username r t w Hskip) as (t1 & Hrun & _).
  cbn [analyze_loop]. unfold bind at 1.
  assert (Ht1 : try_except (process_repo username r t) t w = (Ok t, w1)).
  { clear Hrun. unfold skipped in Hskip.
    apply orb_false_iff in Hskip as [Hfork Hsize].
    unfold try_except, process_repo.
    unfold bind at 1. unfold lift at 1. rewrite py_get_metadata, Hfork.
    unfold bind at 1. unfold lift at 1. rewrite py_get_metadata, Hsize.
    unfold bind at 1. now rewrite Hraise. }
  now rewrite Ht1.
Qed.

Definition listed (name : string) (fork : bool) (size : Z) : repository :=
  {| ref := {| full_name := name |};
     metadata := [("fork", JBool fork); ("size", JInt size)] |}.

Lemma analyze_loop_survives_errors_witness :
  analyze_loop "alice" [listed "o/r" false 12; listed "o/f" true 40]
    empty_tally entry_without_additions
  = analyze_loop "alice" [listed "o/f" true 40] empty_tally
      entry_without_additions.
Proof.
  apply (analyze_loop_survives_errors "alice" (listed "o/r" false 12)
           [listed "o/f" true 40] empty_tally entry_without_additions
           KeyError entry_without_additions);
    reflexivity.
Defined.

(** X14. The loop writes to the cache under the keys of the
    repositories it does not skip, and under no other key. *)
Theorem analyze_loop_keeps_other_entries username repos t w k :
  (forall r,
     r ∈ repos -> skipped r = false -> k <> cache_key (full_name (ref r))) ->
  cache (snd (analyze_loop username repos t w)) !! k = cache w !! k.
Proof.
  revert t w. induction repos as [|r repos IH]; intros t w Hkeys;
    [reflexivity|].
  cbn [analyze_loop]. unfold bind at 1.
  assert (Hrest : forall r0,
            r0 ∈ repos -> skipped r0 = false ->
            k <> cache_key (full_name (ref r0))).
  { intros r0 Hin. apply Hkeys. now right. }
  destruct (skipped r) eqn:Hskip.
  - unfold try_except.
    rewrite (process_repo_skipped username r t w Hskip). now apply IH.
  - destruct (process_repo_outcome username r t w Hskip) as (t1 & -> & _).
    rewrite (IH t1 _ Hrest).
    destruct (get_repository_stats_cache username (ref r) w)
      as [->|(stats & now & ->)]; [reflexivity|].
    apply lookup_insert_ne. apply not_eq_sym, Hkeys; [now left|exact Hskip].
Qed.

Lemma analyze_loop_keeps_other_entries_witness :
  cache (snd (analyze_loop "alice"
                [listed "o/r" true 12; listed "o/a" false 40]
                empty_tally (cached_world 1600000000)))
  !! cache_key "o/r"
  = cache (cached_world 1600000000) !! cache_key "o/r".
Proof.
  apply (analyze_loop_keeps_other_entries "alice"
           [listed "o/r" true 12; listed "o/a" false 40]
           empty_tally (cached_world 1600000000) (cache_key "o/r")).
  intros r Hin Hskip.
  apply elem_of_cons in Hin as [->|Hin]; [discriminate Hskip|].
  apply elem_of_cons in Hin as [->|Hin]; [discriminate|].
  inversion Hin.
Defined.

(** ** Polling the statistics endpoints *)

Lemma contributors_poll_after_pending username repo_name tail polls :
  Forall (fun r => status_code r = 202) polls ->
  forall attempts w,
    net w = map Resp polls ++ tail ->
    exists w1,
      contributors_poll username (length polls + attempts) repo_name w
      = contributors_poll username attempts repo_name w1
      /\ net w1 = tail
      /\ log w1
         = log w
           ++ concat (replicate (length polls)
                        (pending_poll (StatsContributors repo_name)))
      /\ clock w1
         = clock w
           + Z.of_nat (length polls)
             * (RATE_LIMIT_DELAY + STATS_RETRY_DELAY)
      /\ cache w1 = cache w.
Proof.
  induction 1 as [|r polls Hr _ IH]; intros attempts w Hnet.
  - exists w. simpl in *. rewrite app_nil_r. split_and!; trivial. lia.
  - simpl in Hnet. cbn [length Nat.add contributors_poll].
    unfold bind at 1.
    rewrite (make_request_returned _ _ _ _ r (map Resp polls ++ tail));
      [|assumption|apply other_status_not_rate_limited; lia|now left].
    rewrite present_below_400 by lia. rewrite Hr.
    change (202 =? 200) with false. change (202 =? 202) with true.
    cbv iota. unfold bind at 1. unfold do_sleep at 1.
    destruct (IH attempts
                (sleep STATS_RETRY_DELAY
                   (sleep RATE_LIMIT_DELAY
                      (sent (StatsContributors repo_name) None
                         (map Resp polls ++ tail) w)))
                eq_refl)
      as (w1 & Hrun & Hnet1 & Hlog & Hclock & Hcache).
    exists w1. rewrite Hrun. split_and!; trivial.
    + rewrite Hlog. simpl. unfold pending_poll.
      now rewrite <- !app_assoc.
    + rewrite Hclock. simpl clock.
      unfold RATE_LIMIT_DELAY, STATS_RETRY_DELAY. lia.
Qed.

(** What the contributor strategy makes of an answer that is not 202:
    only 200 is parsed, under [try]. *)
Definition contributors_answer (username : string) (r : response)
  : Z * Z :=
  if status_code r =? 200 then
    match parse_contributors username r with
    | Ok stats => stats
    | Raise _ => (0, 0)
    end
  else (0, 0).

Lemma contributors_poll_answer username repo_name attempts w r rest :
  net w = Resp r :: rest ->
  rate_limited r = false ->
  status_code r <> 202 ->
  contributors_poll username (S attempts) repo_name w
  = (Ok (contributors_answer username r),
     sleep RATE_LIMIT_DELAY
       (sent (StatsContributors repo_name) None rest w)).
Proof.
  intros Hnet Hrl Hst. cbn [contributors_poll]. unfold bind.
  rewrite (make_request_returned _ _ _ _ r rest) by (auto).
  unfold present, contributors_answer.
  destruct (response_ok r) eqn:Hok.
  - destruct (status_code r =? 200) eqn:H200.
    + unfold try_except, lift.
      now destruct (parse_contributors username r).
    + apply Z.eqb_neq in Hst. rewrite Hst.
      now destruct (status_code r =? 204), (status_code r =? 422).
  - unfold response_ok in Hok.
    destruct (status_code r =? 200) eqn:H200; [|reflexivity].
    apply Z.eqb_eq in H200. rewrite H200 in Hok. discriminate.
Qed.

(** X15. The contributor strategy polls while the answer is 202 and
    stops at the first other answer, which decides the result: a 200 is
    parsed, any other status gives (0, 0).  With fewer than six 202s
    before it, that answer is reached, after the fixed delay and the retry
    delay for each 202 and the fixed delay for the answer. *)
Theorem contributors_answer_after_pending
    username repo_name w polls r rest :
  net w = map Resp polls ++ Resp r :: rest ->
  (length polls < 6)%nat ->
  Forall (fun p => status_code p = 202) polls ->
  rate_limited r = false ->
  status_code r <> 202 ->
  exists w',
    _get_stats_from_contributors_with_retry username repo_name w
    = (Ok (contributors_answer username r), w')
    /\ net w' = rest
    /\ log w'
       = log w
         ++ concat (replicate (length polls)
                      (pending_poll (StatsContributors repo_name)))
         ++ [EGet (StatsContributors repo_name) None;
             ESleep RATE_LIMIT_DELAY]
    /\ clock w'
       = clock w
         + Z.of_nat (length polls) * (RATE_LIMIT_DELAY + STATS_RETRY_DELAY)
         + RATE_LIMIT_DELAY.
Proof.
  intros Hnet Hlen Hpolls Hrl Hst.
  unfold _get_stats_from_contributors_with_retry, MAX_STATS_RETRIES.
  replace 6%nat with (length polls + S (5 - length polls))%nat by lia.
  destruct (contributors_poll_after_pending username repo_name
              (Resp r :: rest) polls Hpolls (S (5 - length polls)) w Hnet)
    as (w1 & -> & Hnet1 & Hlog & Hclock & Hcache).
  rewrite (contributors_poll_answer username repo_name _ w1 r rest)
    by assumption.
  eexists. split; [reflexivity|]. simpl. split_and!; trivial.
  - rewrite Hlog. now rewrite <- !app_assoc.
  - rewrite Hclock. reflexivity.
Qed.

Lemma contributors_answer_after_pending_witness :
  exists w',
    _get_stats_from_contributors_with_retry "alice" "o/r"
      (world_at 1000
         (map Resp [pending_response; pending_response]
          ++ Resp (ok_response
                     (JArr [contributor "alice" [week 50 10; week 30 5]]))
          :: []))
    = (Ok (80, 15), w')
    /\ net w' = []
    /\ log w'
       = [EGet (StatsContributors "o/r") None; ESleep 1; ESleep 5;
          EGet (StatsContributors "o/r") None; ESleep 1; ESleep 5;
          EGet (StatsContributors "o/r") None; ESleep 1]
    /\ clock w' = 1013.
Proof.
  apply (contributors_answer_after_pending "alice" "o/r"
           (world_at 1000
              (map Resp [pending_response; pending_response]
               ++ Resp (ok_response
                          (JArr [contributor "alice"
                                   [week 50 10; week 30 5]]))
               :: []))
           [pending_response; pending_response]
           (ok_response
              (JArr [contributor "alice" [week 50 10; week 30 5]]))
           []);
    try reflexivity.
  - simpl. lia.
  - repeat constructor.
  - discriminate.
Defined.

Lemma code_frequency_poll_after_pending username repo_name tail polls :
  Forall (fun r => status_code r = 202) polls ->
  forall attempts w,
    net w = map Resp polls ++ tail ->
    exists w1,
      code_frequency_poll username (length polls + attempts) repo_name w
      = code_frequency_poll username attempts repo_name w1
      /\ net w1 = tail
      /\ log w1
         = log w
           ++ concat (replicate (length polls)
                        (pending_poll (StatsCodeFrequency repo_name)))
      /\ cache w1 = cache w.
Proof.
  induction 1 as [|r polls Hr _ IH]; intros attempts w Hnet.
  - exists w. simpl in *. rewrite app_nil_r. split_and!; trivial.
  - simpl in Hnet. cbn [length Nat.add code_frequency_poll].
    unfold bind at 1.
    rewrite (make_request_returned _ _ _ _ r (map Resp polls ++ tail));
      [|assumption|apply other_status_not_rate_limited; lia|now left].
    rewrite present_below_400 by lia. rewrite Hr.
    change (202 =? 200) with false. change (202 =? 202) with true.
    cbv iota. unfold bind at 1. unfold do_sleep at 1.
    destruct (IH attempts
                (sleep STATS_RETRY_DELAY
                   (sleep RATE_LIMIT_DELAY
                      (sent (StatsCodeFrequency repo_name) None
                         (map Resp polls ++ tail) w)))
                eq_refl)
      as (w1 & Hrun & Hnet1 & Hlog & Hcache).
    exists w1. rewrite Hrun. split_and!; trivial.
    rewrite Hlog. simpl. unfold pending_poll. now rewrite <- !app_assoc.
Qed.

(** X16. The code-frequency strategy gives up with (0, 0), without
    asking for any commit, when the endpoint answers 202 six times in a
    row, and when its first answer other than 202 is neither a 200 nor a
    rate limit. *)
Theorem code_frequency_gives_up
    username repo_name w polls tail rest final :
  net w = map Resp polls ++ tail ->
  Forall (fun p => status_code p = 202) polls ->
  (length polls = 6%nat /\ tail = rest /\ final = [])
  \/ ((length polls < 6)%nat
      /\ final = [EGet (StatsCodeFrequency repo_name) None;
                  ESleep RATE_LIMIT_DELAY]
      /\ exists r,
           tail = Resp r :: rest /\ rate_limited r = false
           /\ status_code r <> 200 /\ status_code r <> 202) ->
  exists w',
    _get_stats_from_code_frequency username repo_name w = (Ok (0, 0), w')
    /\ net w' = rest
    /\ log w'
       = log w
         ++ concat (replicate (length polls)
                      (pending_poll (StatsCodeFrequency repo_name)))
         ++ final
    /\ cache w' = cache w.
Proof.
  intros Hnet Hpolls Hend.
  unfold _get_stats_from_code_frequency, MAX_STATS_RETRIES.
  destruct Hend
    as [(Hlen & -> & ->)|(Hlen & -> & r & -> & Hrl & H200 & H202)].
  - destruct (code_frequency_poll_after_pending username repo_name rest
                polls Hpolls 0 w Hnet)
      as (w1 & Hrun & Hnet1 & Hlog & Hcache).
    rewrite Nat.add_0_r, Hlen in Hrun. rewrite Hrun. exists w1.
    split_and!; trivial. now rewrite app_nil_r.
  - replace 6%nat with (length polls + S (5 - length polls))%nat by lia.
    destruct (code_frequency_poll_after_pending username repo_name
                (Resp r :: rest) polls Hpolls (S (5 - length polls)) w Hnet)
      as (w1 & -> & Hnet1 & Hlog & Hcache).
    cbn [code_frequency_poll]. unfold bind.
    rewrite (make_request_returned _ _ _ _ r rest) by auto.
    eexists. split.
    + unfold present. destruct (response_ok r); [|reflexivity].
      apply Z.eqb_neq in H200, H202. rewrite H200, H202.
      now destruct (status_code r =? 204).
    + simpl. split_and!; trivial. rewrite Hlog.
      now rewrite <- !app_assoc.
Qed.

Lemma code_frequency_gives_up_witness :
  exists w',
    _get_stats_from_code_frequency "alice" "o/r"
      (world_at 1000 (map Resp [pending_response] ++ [Resp not_found]))
    = (Ok (0, 0), w')
    /\ net w' = []
    /\ log w'
       = [EGet (StatsCodeFrequency "o/r") None; ESleep 1; ESleep 5;
          EGet (StatsCodeFrequency "o/r") None; ESleep 1]
    /\ cache w' = ∅.
Proof.
  apply (code_frequency_gives_up "alice" "o/r"
           (world_at 1000 (map Resp [pending_response] ++ [Resp not_found]))
           [pending_response] [Resp not_found] []
           [EGet (StatsCodeFrequency "o/r") None; ESleep RATE_LIMIT_DELAY]).
  - reflexivity.
  - repeat constructor.
  - right. split; [simpl; lia|]. split; [reflexivity|]. exists not_found.
    repeat split; discriminate.
Defined.

(** ** Runs of rate-limit responses *)







(** ** The commit-sampling strategy *)











(** X19. Without commits to sample there is nothing to count: when the
    sample request yields absent, or answers with an empty list or with a
    body that is not JSON, the sample is the empty list and commit
    sampling returns (0, 0) after that one request. *)
Theorem commits_sample_without_commits username repo_name w rest :
  (fails_first (net w) rest
   \/ exists r,
        net w = Resp r :: rest /\ status_code r = 200
        /\ (body r = None \/ body r = Some (JArr []))) ->
  exists w',
    _get_user_commits_sample username repo_name w = (Ok (JArr []), w')
    /\ _get_stats_from_commits_sample username repo_name w
       = (Ok (0, 0), w')
    /\ net w' = rest
    /\ cache w' = cache w.
Proof.
  intros Hnone.
  assert (Hsample : exists w',
            _get_user_commits_sample username repo_name w
            = (Ok (JArr []), w')
            /\ net w' = rest /\ cache w' = cache w).
  { unfold _get_user_commits_sample, try_except, bind.
    destruct Hnone as [Hfail|(r & Hnet & Hst & Hbody)].
    - rewrite (make_request_fails _ _ w rest Hfail). eexists.
      split; [reflexivity|]. now split.
    - rewrite (make_request_returned _ _ _ _ r rest);
        [|assumption|apply other_status_not_rate_limited; lia|now right].
      rewrite present_below_400 by lia. unfold lift, response_json.
      eexists. destruct Hbody as [->| ->]; (split; [reflexivity|now split]). }
  destruct Hsample as (w' & Hrun & Hnet' & Hcache').
  exists w'. split_and!; trivial.
  unfold _get_stats_from_commits_sample, bind. now rewrite Hrun.
Qed.

Lemma commits_sample_without_commits_witness :
  exists w',
    _get_user_commits_sample "alice" "o/r"
      (world_at 1000
         [Resp {| status_code := 200; text := "<html>"; 
                  x_ratelimit_reset := HAbsent; body := None |}])
    = (Ok (JArr []), w')
    /\ _get_stats_from_commits_sample "alice" "o/r"
         (world_at 1000
            [Resp {| status_code := 200; text := "<html>"; 
                     x_ratelimit_reset := HAbsent; body := None |}])
       = (Ok (0, 0), w')
    /\ net w' = []
    /\ cache w' = ∅.
Proof.
  apply (commits_sample_without_commits "alice" "o/r"
           (world_at 1000
              [Resp {| status_code := 200; text := "<html>"; 
                       x_ratelimit_reset := HAbsent; body := None |}])
           []).
  right. eexists. split; [reflexivity|]. split; [reflexivity|now left].
Defined.

(** X20. Commit sampling is not guarded: when the cascade reaches it and
    the first commit of the sample has no [sha], [get_repository_stats]
    raises [KeyError] after the sample request, and nothing is written to
    the cache. *)
Theorem commit_without_sha_escapes
    username r w s1 w1 s2 w2 sample fields commits rest :
  cache_check (cache_key (full_name r)) w = (Ok None, w) ->
  _get_stats_from_contributors_with_retry username (full_name r) w
  = (Ok s1, w1) ->
  is_zero s1 = true ->
  _get_stats_from_code_frequency username (full_name r) w1 = (Ok s2, w2) ->
  is_zero s2 = true ->
  net w2 = Resp sample :: rest ->
  status_code sample = 200 ->
  body sample = Some (JArr (JObj fields :: commits)) ->
  assoc "sha" fields = None ->
  exists w',
    get_repository_stats username r w = (Raise KeyError, w')
    /\ net w' = rest
    /\ cache w' = cache w.
Proof.
  intros Hmiss H1 Hz1 H2 Hz2 Hnet Hst Hbody Hsha.
  rewrite (get_repository_stats_miss username r w Hmiss).
  unfold analyze, cascade, bind. rewrite H1, Hz1, H2, Hz2.
  unfold _get_stats_from_commits_sample. unfold bind at 1.
  rewrite (user_commits_sample_200 username (full_name r) w2 sample rest
             (JArr (JObj fields :: commits))) by assumption.
  cbn [truthy negb]. unfold bind at 1. unfold lift at 1. cbn [py_len].
  unfold bind at 1. unfold lift at 1. cbn [py_slice firstn sample_commits].
  unfold bind at 1. unfold lift at 1. cbn [py_getitem]. rewrite Hsha.
  eexists. split; [reflexivity|]. split; [reflexivity|].
  pose proof (keeps_contributors same_cache username (full_name r) w) as K1.
  pose proof (keeps_code_frequency same_cache username (full_name r) w1)
    as K2.
  rewrite H1 in K1. rewrite H2 in K2. unfold same_cache in *. simpl in *.
  congruence.
Qed.

Lemma commit_without_sha_escapes_witness :
  exists w',
    get_repository_stats "alice" {| full_name := "o/r" |}
      (world_at 1700000000
         [Resp {| status_code := 204; text := "";
                  x_ratelimit_reset := HAbsent; body := None |};
          Resp {| status_code := 204; text := "";
                  x_ratelimit_reset := HAbsent; body := None |};
          Resp (ok_response
                  (JArr [JObj [("commit",
                                JObj [("message", JStr "fix")])]]))])
    = (Raise KeyError, w')
    /\ net w' = []
    /\ cache w' = ∅.
Proof.
  eapply (commit_without_sha_escapes "alice" {| full_name := "o/r" |}
           (world_at 1700000000
              [Resp {| status_code := 204; text := "";
                       x_ratelimit_reset := HAbsent; body := None |};
               Resp {| status_code := 204; text := "";
                       x_ratelimit_reset := HAbsent; body := None |};
               Resp (ok_response
                       (JArr [JObj [("commit",
                                     JObj [("message", JStr "fix")])]]))])
           (0, 0) _ (0, 0) _
           (ok_response
              (JArr [JObj [("commit", JObj [("message", JStr "fix")])]]))
           [("commit", JObj [("message", JStr "fix")])] [] []);
    reflexivity.
Defined.

(** X21. Whatever the network answers, the contributor strategy and the
    code-frequency strategy return a pair and the commit sample is
    obtained: none of the three raises. *)
Theorem stats_strategies_never_raise username repo_name w :
  (exists stats w',
     _get_stats_from_contributors_with_retry username repo_name w
     = (Ok stats, w'))
  /\ (exists stats w',
        _get_stats_from_code_frequency username repo_name w
        = (Ok stats, w'))
  /\ (exists commits w',
        _get_user_commits_sample username repo_name w = (Ok commits, w')).
Proof.
  split_and!.
  - apply total_contributors_poll.
  - apply total_code_frequency_poll.
  - apply total_user_commits_sample.
Qed.

(** ** The enumeration: two examples *)

(** Stand-ins for the endpoints that the statements about
    [get_all_repositories] leave open. *)
Definition endpoint (path : string) : url := Commits path.

Definition page_of_two : listing :=
  {| listing_responses :=
       [ok_response (JArr [repo_record "me/a" false 10;
                           repo_record "acme/x" false 20])];
     listing_pages :=
       [[repo_record "me/a" false 10; repo_record "acme/x" false 20]];
     listing_end := ok_response (JArr []) |}.

Definition page_of_acme : listing :=
  {| listing_responses :=
       [ok_response (JArr [repo_record "acme/x" false 20;
                           repo_record "acme/y" true 30])];
     listing_pages :=
       [[repo_record "acme/x" false 20; repo_record "acme/y" true 30]];
     listing_end := ok_response (JArr []) |}.

Lemma page_of_two_ok : listing_ok page_of_two.
Proof. repeat split; repeat constructor; discriminate. Defined.

Lemma page_of_acme_ok : listing_ok page_of_acme.
Proof. repeat split; repeat constructor; discriminate. Defined.

Lemma get_all_repositories_lists_personal_then_orgs_witness :
  exists w',
    get_all_repositories (endpoint "user/repos") (endpoint "user/orgs")
      (fun _ => endpoint "orgs/acme/repos")
      (world_at 1000
         (script_of page_of_two
          ++ Resp (ok_response (JArr [JObj [("login", JStr "acme")]]))
          :: concat (map script_of [page_of_acme]) ++ []))
    = (unique_loop
         (items_of page_of_two ++ concat (map items_of [page_of_acme]))
         [] [],
       w')
    /\ net w' = []
    /\ cache w' = ∅.
Proof.
  apply (get_all_repositories_lists_personal_then_orgs
           (endpoint "user/repos") (endpoint "user/orgs")
           (fun _ => endpoint "orgs/acme/repos")
           (world_at 1000
              (script_of page_of_two
               ++ Resp (ok_response (JArr [JObj [("login", JStr "acme")]]))
               :: concat (map script_of [page_of_acme]) ++ []))
           page_of_two
           (ok_response (JArr [JObj [("login", JStr "acme")]]))
           [JObj [("login", JStr "acme")]]
           [page_of_acme] []
           page_of_two_ok eq_refl eq_refl).
  - constructor; [|constructor]. split; [|exact page_of_acme_ok].
    eexists. reflexivity.
  - reflexivity.
Defined.

Lemma get_all_repositories_without_orgs_witness :
  exists w',
    get_all_repositories (endpoint "user/repos") (endpoint "user/orgs")
      (fun _ => endpoint "orgs/acme/repos")
      (world_at 1000 (script_of page_of_two ++ [Resp not_found]))
    = (unique_loop (items_of page_of_two) [] [], w')
    /\ net w' = []
    /\ cache w' = ∅.
Proof.
  apply (get_all_repositories_without_orgs
           (endpoint "user/repos") (endpoint "user/orgs")
           (fun _ => endpoint "orgs/acme/repos")
           (world_at 1000 (script_of page_of_two ++ [Resp not_found]))
           page_of_two [Resp not_found] [] page_of_two_ok eq_refl).
  right. right. exists not_found. repeat split. discriminate.
Defined.
